(** * smartie: NVMe and SCSI pass-through layer

    A shallow embedding of [smartie/nvme/__init__.py],
    [smartie/nvme/structures.py] and [smartie/scsi/windows.py].

    - ctypes structures are byte buffers read through a layout computed
      from their [_fields_] declaration (module [Ctypes]);
    - Python exceptions are an error type threaded through a small
      exception monad, and through a state-and-exception monad where the
      code mutates [self] or calls the operating system (module [Py]);
    - collaborators that live outside these three files (the concrete
      [issue_admin_command], [parse_sense], the kernel32 entry points) are
      section variables. *)

From Stdlib Require Import String Ascii Strings.Byte.
From Stdlib Require Import ZArith List Lia Bool.
From Stdlib Require Import Floats.SpecFloat.
Import ListNotations.

Local Open Scope Z_scope.

(* ================================================================== *)
(** * Python values, exceptions and the exception monad               *)
(* ================================================================== *)

Module Py.

(** Bytes of a buffer ([bytes], [bytearray], a ctypes array of
    [c_ubyte]). *)
Definition bytes := list byte.

Definition byte_val (b : byte) : Z := Z.of_N (Byte.to_N b).

(** A Python [str]: a sequence of Unicode code points. *)
Definition str := list Z.

Definition str_of_string (s : string) : str :=
  map (fun a => Z.of_N (N_of_ascii a)) (list_ascii_of_string s).

Definition bytes_of_string (s : string) : bytes :=
  map byte_of_ascii (list_ascii_of_string s).

(** The exceptions the three modules can raise.  The payload of a status
    error is the raw two-byte status structure. *)
Inductive exn : Type :=
| ValueError_buffer_too_small (got need : Z)
    (* ctypes [from_buffer_copy]: "Buffer size too small" *)
| NVMeStatusFieldError (status_code status_code_type : Z) (status_filed : bytes)
| IOError_already_open
    (* IOError('Device is already open.') *)
| WinError (code : Z)
    (* ctypes.WinError(ctypes.get_last_error()) *)
| TypeError_bool_returned_None
    (* "__bool__ should return bool, returned NoneType" *)
| UnicodeDecodeError
| OverflowError
    (* int() of an infinite float *)
| ValueError_nan
    (* int() of a NaN *)
| ForeignError (tag : Z)
    (* whatever an external collaborator raises *).

Inductive result (A : Type) : Type :=
| Ok (a : A)
| Raise (e : exn).
Arguments Ok {A} a.
Arguments Raise {A} e.

Definition bind {A B} (m : result A) (k : A -> result B) : result B :=
  match m with
  | Ok a => k a
  | Raise e => Raise e
  end.

(** ** bytes methods *)

Definition byte_in (chars : bytes) (b : byte) : bool :=
  existsb (Byte.eqb b) chars.

(** [bytes.lstrip(chars)] *)
Fixpoint lstrip (chars : bytes) (l : bytes) : bytes :=
  match l with
  | [] => []
  | b :: t => if byte_in chars b then lstrip chars t else l
  end.

(** [bytes.rstrip(chars)] *)
Definition rstrip (chars : bytes) (l : bytes) : bytes :=
  rev (lstrip chars (rev l)).

(** [bytes.strip(chars)]: both ends. *)
Definition strip (chars : bytes) (l : bytes) : bytes :=
  rstrip chars (lstrip chars l).

(** [bytes.ljust(width, fill)] *)
Definition ljust (width : nat) (fill : byte) (l : bytes) : bytes :=
  l ++ repeat fill (width - length l)%nat.

(** [all(P(k) for k in range(start, start + count))] *)
Fixpoint all_range (P : Z -> bool) (start : Z) (count : nat) : bool :=
  match count with
  | O => true
  | S count' => P start && all_range P (start + 1) count'
  end.

(** ** [bytes.decode()] (UTF-8, strict) *)

Definition in_range (lo hi z : Z) : bool := (lo <=? z) && (z <=? hi).

Definition cons_cp (cp : Z) (r : result str) : result str :=
  bind r (fun s => Ok (cp :: s)).

(** Well-formed byte sequences only: no overlong forms, no surrogates,
    nothing above U+10FFFF. *)
Fixpoint utf8_decode (l : bytes) : result str :=
  match l with
  | [] => Ok []
  | b0 :: t =>
      let c0 := byte_val b0 in
      if c0 <? 0x80 then cons_cp c0 (utf8_decode t)
      else if in_range 0xC2 0xDF c0 then
        match t with
        | b1 :: r =>
            let c1 := byte_val b1 in
            if in_range 0x80 0xBF c1
            then cons_cp ((c0 - 0xC0) * 64 + (c1 - 0x80)) (utf8_decode r)
            else Raise UnicodeDecodeError
        | _ => Raise UnicodeDecodeError
        end
      else if in_range 0xE0 0xEF c0 then
        match t with
        | b1 :: b2 :: r =>
            let c1 := byte_val b1 in
            let c2 := byte_val b2 in
            let lo := if c0 =? 0xE0 then 0xA0 else 0x80 in
            let hi := if c0 =? 0xED then 0x9F else 0xBF in
            if in_range lo hi c1 && in_range 0x80 0xBF c2
            then cons_cp ((c0 - 0xE0) * 4096 + (c1 - 0x80) * 64 + (c2 - 0x80))
                         (utf8_decode r)
            else Raise UnicodeDecodeError
        | _ => Raise UnicodeDecodeError
        end
      else if in_range 0xF0 0xF4 c0 then
        match t with
        | b1 :: b2 :: b3 :: r =>
            let c1 := byte_val b1 in
            let c2 := byte_val b2 in
            let c3 := byte_val b3 in
            let lo := if c0 =? 0xF0 then 0x90 else 0x80 in
            let hi := if c0 =? 0xF4 then 0x8F else 0xBF in
            if in_range lo hi c1 && in_range 0x80 0xBF c2
               && in_range 0x80 0xBF c3
            then cons_cp ((c0 - 0xF0) * 262144 + (c1 - 0x80) * 4096
                          + (c2 - 0x80) * 64 + (c3 - 0x80))
                         (utf8_decode r)
            else Raise UnicodeDecodeError
        | _ => Raise UnicodeDecodeError
        end
      else Raise UnicodeDecodeError
  end.

(** ** [float]: IEEE 754 binary64 *)

Definition float := spec_float.
Definition prec : Z := 53.
Definition emax : Z := 1024.

(** [float(n)] for an [int] (round to nearest, ties to even). *)
Definition float_of_int (n : Z) : float := binary_normalize prec emax n 0 false.

(** [x - y] on floats. *)
Definition float_sub (x y : float) : float := SFsub prec emax x y.

(** The literal [273.15]: the double nearest to it,
    0x1.1126666666666p+8. *)
Definition lit_273_15 : float := S754_finite false 0x11126666666666 (-44).

(** [int(x)] for a float: truncation toward zero, that is, the bits of
    the magnitude m * 2^e at and above the binary point; infinities and
    NaN raise. *)
Definition int_of_float (x : float) : result Z :=
  match x with
  | S754_zero _ => Ok 0
  | S754_finite s m e =>
      let mag :=
        if 0 <=? e then Z.shiftl (Z.pos m) e else Z.shiftr (Z.pos m) (- e) in
      Ok (if s then - mag else mag)
  | S754_infinity _ => Raise OverflowError
  | S754_nan => Raise ValueError_nan
  end.

(** ** Truth testing *)

(** What a [__bool__] method handed back. *)
Inductive pyobj : Type :=
| PyNone
| PyBool (b : bool).

Definition of_optional_bool (o : option bool) : pyobj :=
  match o with
  | Some b => PyBool b
  | None => PyNone
  end.

(** [bool(x)], [if x:], [not x] on an instance whose class defines
    [__bool__]: the interpreter takes what the method returned and
    insists on a [bool]. *)
Definition truth_of (returned : pyobj) : result bool :=
  match returned with
  | PyBool b => Ok b
  | PyNone => Raise TypeError_bool_returned_None
  end.

(** ** State and exceptions

    A method that assigns to [self] or calls the operating system: the
    state left behind is kept also when the method raises. *)

Definition M (S A : Type) : Type := S -> result A * S.

Definition ret {S A} (a : A) : M S A := fun s => (Ok a, s).

Definition raise {S A} (e : exn) : M S A := fun s => (Raise e, s).

Definition mbind {S A B} (m : M S A) (k : A -> M S B) : M S B :=
  fun s =>
    match m s with
    | (Ok a, s') => k a s'
    | (Raise e, s') => (Raise e, s')
    end.

Definition get {S} : M S S := fun s => (Ok s, s).

(** A call that may raise but does not touch the state. *)
Definition lift {S A} (r : result A) : M S A := fun s => (r, s).

End Py.

Declare Scope py_scope.
Delimit Scope py_scope with py.
Notation "x <- m ;; k" := (Py.mbind m (fun x => k))
  (at level 61, m at next level, right associativity) : py_scope.
Notation "' pat <- m ;; k" :=
  (Py.mbind m (fun x => match x with pat => k end))
  (at level 61, pat pattern, m at next level, right associativity) : py_scope.
Notation "m ;;; k" := (Py.mbind m (fun _ => k))
  (at level 61, right associativity) : py_scope.

(* ================================================================== *)
(** * ctypes: structure layout and field access                       *)
(* ================================================================== *)

Module Ctypes.
Import Py.

(** A field type as far as layout goes: its size and its alignment. *)
Record ctype : Type := { ct_size : Z; ct_align : Z }.

Definition c_ubyte  : ctype := {| ct_size := 1; ct_align := 1 |}.
Definition c_ushort : ctype := {| ct_size := 2; ct_align := 2 |}.
Definition c_uint16 : ctype := {| ct_size := 2; ct_align := 2 |}.
Definition c_uint32 : ctype := {| ct_size := 4; ct_align := 4 |}.
Definition c_uint64 : ctype := {| ct_size := 8; ct_align := 8 |}.

(** [t * n] *)
Definition c_array (t : ctype) (n : Z) : ctype :=
  {| ct_size := ct_size t * n; ct_align := ct_align t |}.

(** One entry of [_fields_]: name, type, and the bit width when the
    entry has a third component. *)
Record field_decl : Type :=
  { f_name : string; f_type : ctype; f_bits : option Z }.

Definition fld (n : string) (t : ctype) : field_decl :=
  {| f_name := n; f_type := t; f_bits := None |}.
Definition bitfld (n : string) (t : ctype) (w : Z) : field_decl :=
  {| f_name := n; f_type := t; f_bits := Some w |}.

(** A structure class: [_pack_] (when given) and [_fields_]. *)
Record cstruct : Type :=
  { s_pack : option Z; s_fields : list field_decl }.

(** Where a field ends up: byte offset of its storage unit, size of that
    unit, and for a bit field its first bit and width. *)
Record placed : Type :=
  { p_name : string; p_offset : Z; p_size : Z;
    p_bitofs : Z; p_bits : option Z }.

(** Running state of the layout pass: next free offset, next free bit and
    width in bits of the open bit-field unit (0 when none is open), and
    the alignment of the structure so far. *)
Record lstate : Type :=
  { ls_offset : Z; ls_bitofs : Z; ls_field_size : Z; ls_align : Z }.

Definition align_up (off a : Z) : Z :=
  if (0 <? a) && negb (off mod a =? 0) then off + (a - off mod a) else off.

Definition eff_align (pack : option Z) (t : ctype) : Z :=
  match pack with
  | Some p => Z.min p (ct_align t)
  | None => ct_align t
  end.

(** Placement of one field.  A bit field goes on in the open unit when
    that unit has the size of the field's type and the bits still fit;
    otherwise a new unit is opened at the next aligned offset.  (All bit
    fields of the structures below are declared on [c_ubyte], where the
    GCC and the MSVC rules agree.) *)
Definition place (pack : option Z) (st : lstate) (f : field_decl)
  : placed * lstate :=
  let t := f_type f in
  let a := eff_align pack t in
  let off := align_up (ls_offset st) a in
  match f_bits f with
  | Some w =>
      if (0 <? ls_field_size st)
         && (ct_size t * 8 =? ls_field_size st)
         && (ls_bitofs st + w <=? ls_field_size st)
      then
        ({| p_name := f_name f; p_offset := ls_offset st - ct_size t;
            p_size := ct_size t; p_bitofs := ls_bitofs st;
            p_bits := Some w |},
         {| ls_offset := ls_offset st; ls_bitofs := ls_bitofs st + w;
            ls_field_size := ls_field_size st; ls_align := ls_align st |})
      else
        ({| p_name := f_name f; p_offset := off; p_size := ct_size t;
            p_bitofs := 0; p_bits := Some w |},
         {| ls_offset := off + ct_size t; ls_bitofs := w;
            ls_field_size := ct_size t * 8;
            ls_align := Z.max a (ls_align st) |})
  | None =>
      ({| p_name := f_name f; p_offset := off; p_size := ct_size t;
          p_bitofs := 0; p_bits := None |},
       {| ls_offset := off + ct_size t; ls_bitofs := 0;
          ls_field_size := 0; ls_align := Z.max a (ls_align st) |})
  end.

Fixpoint place_all (pack : option Z) (st : lstate) (fs : list field_decl)
  : list placed * lstate :=
  match fs with
  | [] => ([], st)
  | f :: fs' =>
      let '(p, st') := place pack st f in
      let '(ps, st'') := place_all pack st' fs' in
      (p :: ps, st'')
  end.

Definition init_lstate : lstate :=
  {| ls_offset := 0; ls_bitofs := 0; ls_field_size := 0; ls_align := 1 |}.

Definition layout (s : cstruct) : list placed :=
  fst (place_all (s_pack s) init_lstate (s_fields s)).

Definition alignment (s : cstruct) : Z :=
  ls_align (snd (place_all (s_pack s) init_lstate (s_fields s))).

(** [ctypes.sizeof(S)]: the end of the last field rounded up to the
    alignment of the structure. *)
Definition sizeof (s : cstruct) : Z :=
  align_up (ls_offset (snd (place_all (s_pack s) init_lstate (s_fields s))))
           (alignment s).

(** A structure used as the type of a field. *)
Definition c_struct (s : cstruct) : ctype :=
  {| ct_size := sizeof s; ct_align := alignment s |}.

(** ** Reading fields out of a buffer (little-endian host) *)

Definition slice (buf : bytes) (off len : Z) : bytes :=
  firstn (Z.to_nat len) (skipn (Z.to_nat off) buf).

Fixpoint le_decode (l : bytes) : Z :=
  match l with
  | [] => 0
  | b :: t => byte_val b + 256 * le_decode t
  end.

Fixpoint le_encode (n : nat) (v : Z) : list Z :=
  match n with
  | O => []
  | S n' => (v mod 256) :: le_encode n' (v / 256)
  end.

Definition read_placed (p : placed) (buf : bytes) : Z :=
  let unit := le_decode (slice buf (p_offset p) (p_size p)) in
  match p_bits p with
  | Some w => Z.land (Z.shiftr unit (p_bitofs p)) (Z.ones w)
  | None => unit
  end.

(** Integer field [name] of an instance of [s] stored in [buf]. *)
Definition get_field (s : cstruct) (name : string) (buf : bytes) : Z :=
  match find (fun p => String.eqb (p_name p) name) (layout s) with
  | Some p => read_placed p buf
  | None => 0
  end.

(** Array-of-[c_ubyte] field [name], as [bytearray(obj.name)]. *)
Definition get_array (s : cstruct) (name : string) (buf : bytes) : bytes :=
  match find (fun p => String.eqb (p_name p) name) (layout s) with
  | Some p => slice buf (p_offset p) (p_size p)
  | None => []
  end.

(** A live ctypes object: where it sits in memory and what it holds.
    [ctypes.addressof] and [ctypes.sizeof] read these off. *)
Record cobject : Type := { address : Z; contents : bytes }.

Definition addressof (o : cobject) : Z := address o.
Definition sizeof_obj (o : cobject) : Z := Z.of_nat (length (contents o)).

(** [S()]: a zero-filled instance. *)
Definition new (s : cstruct) : bytes :=
  repeat x00 (Z.to_nat (sizeof s)).

(** [T.from_buffer_copy(source)]: the first [sizeof(T)] bytes of the
    source, or [ValueError] when the source is shorter. *)
Definition from_buffer_copy (t : ctype) (source : bytes) : result bytes :=
  if Z.of_nat (length source) <? ct_size t
  then Raise (ValueError_buffer_too_small (Z.of_nat (length source)) (ct_size t))
  else Ok (firstn (Z.to_nat (ct_size t)) source).

(** Name, offset and size of every field, in declaration order. *)
Definition spans (s : cstruct) : list (string * Z * Z) :=
  map (fun p => (p_name p, p_offset p, p_size p)) (layout s).

(** The byte holding the low eight bits of an integer. *)
Definition byte_of_Z (z : Z) : byte :=
  match Byte.of_N (Z.to_N (z mod 256)) with
  | Some b => b
  | None => x00
  end.

End Ctypes.

(* ================================================================== *)
(** * smartie/nvme/structures.py                                      *)
(* ================================================================== *)

Module Structures.
Import Ctypes.
Local Open Scope string_scope.

(** IOCTL for NVMe Admin commands on Linux. *)
Definition IOCTL_NVMe_ADMIN_CMD : Z := 0xC0484E41.

(** [class NVMeAdminCommands(enum.IntEnum)] *)
Inductive NVMeAdminCommands : Type := GET_LOG_PAGE | IDENTIFY.

Definition opcode_value (c : NVMeAdminCommands) : Z :=
  match c with
  | GET_LOG_PAGE => 0x02
  | IDENTIFY => 0x06
  end.

Definition NVMeAdminCommand : cstruct :=
  {| s_pack := Some 1;
     s_fields :=
       [ fld "opcode" c_ubyte;
         fld "flags" c_ubyte;
         fld "reserved_1" c_ushort;
         fld "nsid" c_uint32;
         fld "cdw2" c_uint32;
         fld "cdw3" c_uint32;
         fld "metadata" c_uint64;
         fld "addr" c_uint64;
         fld "metadata_len" c_uint32;
         fld "data_len" c_uint32;
         fld "cdw10" c_uint32;
         fld "cdw11" c_uint32;
         fld "cdw12" c_uint32;
         fld "cdw13" c_uint32;
         fld "cdw14" c_uint32;
         fld "cdw15" c_uint32;
         fld "timeout_ms" c_uint32;
         fld "result" c_uint32 ] |}.

(** The format of NVMe Completion Queue Entry Status Field. *)
Definition NVMeCQEStatusField : cstruct :=
  {| s_pack := None;
     s_fields :=
       [ fld "status_code" c_ubyte;
         bitfld "status_code_type" c_ubyte 3;
         bitfld "cmd_retry_delay" c_ubyte 2;
         bitfld "more" c_ubyte 1;
         bitfld "do_not_retry" c_ubyte 1 ] |}.

Definition NVMeIdentifyResponse : cstruct :=
  {| s_pack := None;
     s_fields :=
       [ fld "vendor_id" c_uint16;
         fld "ssvid" c_uint16;
         fld "serial_number" (c_array c_ubyte 20);
         fld "model_number" (c_array c_ubyte 40);
         fld "firmware_revision" (c_array c_ubyte 8);
         fld "unknown" (c_array c_ubyte 4024) ] |}.

Definition SMARTCriticalWarning : cstruct :=
  {| s_pack := Some 1;
     s_fields :=
       [ bitfld "available_spare" c_ubyte 1;
         bitfld "temperature" c_ubyte 1;
         bitfld "degraded_nvm" c_ubyte 1;
         bitfld "read_only" c_ubyte 1;
         bitfld "volatile_memory_backup" c_ubyte 1;
         bitfld "reserved_1" c_ubyte 3 ] |}.

(** Modelled from the spec: [c_uint128] is imported from
    [smartie.structures], which is not among the sources; the spec has
    it as an unsigned integer composed from two 64-bit halves. *)
Definition c_uint128 : ctype :=
  c_struct {| s_pack := None;
              s_fields := [ fld "low" c_uint64; fld "high" c_uint64 ] |}.

(** The response from the SMART Log Page (0x02). *)
Definition SMARTPageResponse : cstruct :=
  {| s_pack := Some 1;
     s_fields :=
       [ fld "critical_warning" (c_struct SMARTCriticalWarning);
         fld "temperature" c_ushort;
         fld "available_spare" c_ubyte;
         fld "available_spare_threshold" c_ubyte;
         fld "percent_used" c_ubyte;
         fld "endurance_group_critical_warning_summary" c_ubyte;
         fld "reserved_1" (c_array c_ubyte 25);
         fld "data_units_read" c_uint128;
         fld "data_units_written" c_uint128;
         fld "host_read_commands" c_uint128;
         fld "host_write_commands" c_uint128;
         fld "controller_busy_time" c_uint128;
         fld "power_cycles" c_uint128;
         fld "power_on_hours" c_uint128;
         fld "unsafe_shutdowns" c_uint128;
         fld "media_errors" c_uint128;
         fld "num_err_log_entries" c_uint128;
         fld "warning_temp_time" c_uint32;
         fld "critical_temp_time" c_uint32;
         fld "temperature_sensors" (c_array c_uint16 8);
         fld "thermal_transition_counts" (c_array c_uint32 2);
         fld "total_time_for_thermal_management" (c_array c_uint32 2);
         fld "reserved_2" (c_array c_ubyte 280) ] |}.

(** Below: the structures used by the Windows NVMe command. *)

(** [StoragePropertyQuery] *)
Definition StoragePropertyQuery : cstruct :=
  {| s_pack := Some 1;
     s_fields :=
       [ fld "PropertyId" c_uint32;
         fld "QueryType" c_uint32 ] |}.

(** [StorageProtocolSpecificData] *)
Definition StorageProtocolSpecificData : cstruct :=
  {| s_pack := Some 1;
     s_fields :=
       [ fld "ProtocolType" c_uint32;
         fld "DataType" c_uint32;
         fld "ProtocolDataRequestValue" c_uint32;
         fld "ProtocolDataRequestSubValue" c_uint32;
         fld "ProtocolDataOffset" c_uint32;
         fld "ProtocolDataLength" c_uint32;
         fld "FixedProtocolReturnData" c_uint32;
         fld "ProtocolDataRequestSubValue2" c_uint32;
         fld "ProtocolDataRequestSubValue3" c_uint32;
         fld "ProtocolDataRequestSubValue4" c_uint32 ] |}.

(** [NVMeSpecificDataQueryHeader] *)
Definition NVMeSpecificDataQueryHeader : cstruct :=
  {| s_pack := Some 1;
     s_fields :=
       [ fld "storage_property_query" (c_struct StoragePropertyQuery);
         fld "storage_protocol_specific_data"
             (c_struct StorageProtocolSpecificData) ] |}.

(** [GetNVMeSpecificDataQueryWithData(data_length)]: the class [Query];
    [None] when ctypes does not make the class: a negative length is a
    [ValueError], a length of 2^63 or more an [OverflowError], and a length
    with which the 48 bytes of header and the data together reach 2^63
    bytes overflows the size of the structure. *)
Definition GetNVMeSpecificDataQueryWithData (data_length : Z) : option cstruct :=
  if ((data_length <? 0) || (2 ^ 63 <=? 48 + data_length))%Z then None
  else Some {| s_pack := Some 1;
               s_fields :=
                 [ fld "command_header" (c_struct NVMeSpecificDataQueryHeader);
                   fld "data" (c_array c_ubyte data_length) ] |}.

(** [STORAGE_PROTOCOL_DATA_DESCRIPTOR] *)
Definition STORAGE_PROTOCOL_DATA_DESCRIPTOR : cstruct :=
  {| s_pack := Some 1;
     s_fields :=
       [ fld "Version" c_uint32;
         fld "Size" c_uint32;
         fld "storage_protocol_specific_data"
             (c_struct StorageProtocolSpecificData) ] |}.

(** [BytesReturnedStruc] *)
Definition BytesReturnedStruc : cstruct :=
  {| s_pack := Some 1;
     s_fields := [ fld "return_bytes" c_uint32 ] |}.

End Structures.


(* ================================================================== *)
(** * smartie/nvme/__init__.py                                        *)
(* ================================================================== *)

Module NVMe.
Import Py Ctypes Structures.
Local Open Scope string_scope.
Local Open Scope list_scope.
Local Open Scope Z_scope.

(** The device transfers [written] to the start of the buffer; the buffer
    keeps its size. *)
Definition fill (o : cobject) (written : bytes) : cobject :=
  {| address := address o;
     contents := firstn (length (contents o)) written
                 ++ skipn (length written) (contents o) |}.

(** An instance of the admin command structure, field by field.  Every
    field is an unsigned integer of the declared width: assigning a
    Python [int] keeps its low bits. *)
Record AdminCommand : Type :=
  { cmd_opcode : Z; cmd_flags : Z; cmd_reserved_1 : Z; cmd_nsid : Z;
    cmd_cdw2 : Z; cmd_cdw3 : Z; cmd_metadata : Z; cmd_addr : Z;
    cmd_metadata_len : Z; cmd_data_len : Z;
    cmd_cdw10 : Z; cmd_cdw11 : Z; cmd_cdw12 : Z; cmd_cdw13 : Z;
    cmd_cdw14 : Z; cmd_cdw15 : Z; cmd_timeout_ms : Z; cmd_result : Z }.

Definition store (t : ctype) (v : Z) : Z := v mod 2 ^ (8 * ct_size t).

(** [NVMEAdminCommand(opcode=.., addr=.., data_len=.., nsid=.., cdw10=..)];
    the fields not named stay zero.  (The module imports the class as
    [NVMEAdminCommand]; structures.py declares it as
    [NVMeAdminCommand].) *)
Definition NVMEAdminCommand (opcode : NVMeAdminCommands)
           (addr data_len nsid cdw10 : Z) : AdminCommand :=
  {| cmd_opcode := store c_ubyte (opcode_value opcode);
     cmd_flags := 0; cmd_reserved_1 := 0;
     cmd_nsid := store c_uint32 nsid;
     cmd_cdw2 := 0; cmd_cdw3 := 0; cmd_metadata := 0;
     cmd_addr := store c_uint64 addr;
     cmd_metadata_len := 0;
     cmd_data_len := store c_uint32 data_len;
     cmd_cdw10 := store c_uint32 cdw10;
     cmd_cdw11 := 0; cmd_cdw12 := 0; cmd_cdw13 := 0;
     cmd_cdw14 := 0; cmd_cdw15 := 0; cmd_timeout_ms := 0;
     cmd_result := 0 |}.

(** The memory image of a command instance: its fields in declaration
    order, each little-endian on its declared width. *)
Definition command_bytes (c : AdminCommand) : list Z :=
  le_encode 1 (cmd_opcode c) ++ le_encode 1 (cmd_flags c)
  ++ le_encode 2 (cmd_reserved_1 c) ++ le_encode 4 (cmd_nsid c)
  ++ le_encode 4 (cmd_cdw2 c) ++ le_encode 4 (cmd_cdw3 c)
  ++ le_encode 8 (cmd_metadata c) ++ le_encode 8 (cmd_addr c)
  ++ le_encode 4 (cmd_metadata_len c) ++ le_encode 4 (cmd_data_len c)
  ++ le_encode 4 (cmd_cdw10 c) ++ le_encode 4 (cmd_cdw11 c)
  ++ le_encode 4 (cmd_cdw12 c) ++ le_encode 4 (cmd_cdw13 c)
  ++ le_encode 4 (cmd_cdw14 c) ++ le_encode 4 (cmd_cdw15 c)
  ++ le_encode 4 (cmd_timeout_ms c) ++ le_encode 4 (cmd_result c).

(** [class NVMeResponse] *)
Record NVMeResponse : Type :=
  { succeeded : option bool;
    command_spec : option Z;
    status_field : option bytes;
    command : AdminCommand;
    bytes_transferred : option Z;
    platform_header : option bytes }.

(** [NVMeResponse.__bool__]: [return self.succeeded]. *)
Definition NVMeResponse__bool__ (self : NVMeResponse) : pyobj :=
  of_optional_bool (succeeded self).

(** [bool(response)] *)
Definition truth (self : NVMeResponse) : result bool :=
  truth_of (NVMeResponse__bool__ self).

(** Field readers of the status structure. *)
Definition status_code (f : bytes) : Z :=
  get_field NVMeCQEStatusField "status_code" f.
Definition status_code_type (f : bytes) : Z :=
  get_field NVMeCQEStatusField "status_code_type" f.
Definition cmd_retry_delay (f : bytes) : Z :=
  get_field NVMeCQEStatusField "cmd_retry_delay" f.
Definition more (f : bytes) : Z :=
  get_field NVMeCQEStatusField "more" f.
Definition do_not_retry (f : bytes) : Z :=
  get_field NVMeCQEStatusField "do_not_retry" f.

(** [NVMEDevice.parse_status_filed] *)
Definition parse_status_filed (status_blob : bytes) : result bytes :=
  bind (from_buffer_copy (c_struct NVMeCQEStatusField) status_blob) (fun status_filed =>
    if negb (status_code status_filed =? 0)
       || negb (status_code_type status_filed =? 0)
    then Raise (NVMeStatusFieldError (status_code status_filed)
                                     (status_code_type status_filed)
                                     status_filed)
    else Ok status_filed).

(** [int(kelvin - 273.15)] *)
Definition celsius (kelvin : Z) : result Z :=
  int_of_float (float_sub (float_of_int kelvin) lit_273_15).

(** [b" \x00"] *)
Definition blank : bytes := [x20; x00].

(** [bytearray(field).strip(b" \x00").decode()] *)
Definition text_of (field : bytes) : result str :=
  utf8_decode (strip blank field).

Section Device.

(** The abstract method: what the platform does with a command.  It
    either raises or hands back the bytes the device transferred into
    the buffer at [addr], and the response object. *)
Variable issue_admin_command : AdminCommand -> result (bytes * NVMeResponse).

(** Where the allocator puts a fresh instance of a structure class. *)
Variable alloc : cstruct -> Z.

Definition new_object (s : cstruct) : cobject :=
  {| address := alloc s; contents := new s |}.

Definition identify_command (data : cobject) : AdminCommand :=
  NVMEAdminCommand IDENTIFY (addressof data) (sizeof_obj data) 0 1.

Definition identify : result (cobject * NVMeResponse) :=
  let data := new_object NVMeIdentifyResponse in
  bind (issue_admin_command (identify_command data))
       (fun '(written, response) => Ok (fill data written, response)).

Definition serial : result str :=
  bind identify (fun '(identify, response) =>
    text_of (get_array NVMeIdentifyResponse "serial_number" (contents identify))).

Definition model : result str :=
  bind identify (fun '(identify, response) =>
    text_of (get_array NVMeIdentifyResponse "model_number" (contents identify))).

Definition read_log_page_command (log_page_id : Z) (data : cobject)
  : AdminCommand :=
  NVMEAdminCommand GET_LOG_PAGE (addressof data) (sizeof_obj data)
    0xFFFFFFFF
    (Z.lor log_page_id (Z.shiftl (sizeof_obj data / 4 - 1) 16)).

Definition read_log_page (log_page_id : Z) (data : cobject)
  : result (cobject * NVMeResponse) :=
  bind (issue_admin_command (read_log_page_command log_page_id data))
       (fun '(written, response) => Ok (fill data written, response)).

Definition smart : result (cobject * NVMeResponse) :=
  read_log_page 0x02 (new_object SMARTPageResponse).

Definition temperature : result Z :=
  bind smart (fun '(smart, response) =>
    celsius (get_field SMARTPageResponse "temperature" (contents smart))).

End Device.

(** The memory image as a buffer, and an instance read back from a
    buffer through the layout of the structure. *)
Definition command_image (c : AdminCommand) : bytes :=
  map byte_of_Z (command_bytes c).

Definition command_of_image (image : bytes) : AdminCommand :=
  let field := fun name => get_field NVMeAdminCommand name image in
  {| cmd_opcode := field "opcode"; cmd_flags := field "flags";
     cmd_reserved_1 := field "reserved_1"; cmd_nsid := field "nsid";
     cmd_cdw2 := field "cdw2"; cmd_cdw3 := field "cdw3";
     cmd_metadata := field "metadata"; cmd_addr := field "addr";
     cmd_metadata_len := field "metadata_len";
     cmd_data_len := field "data_len";
     cmd_cdw10 := field "cdw10"; cmd_cdw11 := field "cdw11";
     cmd_cdw12 := field "cdw12"; cmd_cdw13 := field "cdw13";
     cmd_cdw14 := field "cdw14"; cmd_cdw15 := field "cdw15";
     cmd_timeout_ms := field "timeout_ms"; cmd_result := field "result" |}.

End NVMe.


(* ================================================================== *)
(** * smartie/scsi/windows.py                                         *)
(* ================================================================== *)

Module WindowsSCSI.
Import Py Ctypes.
Local Open Scope py_scope.

(** Modelled from the spec: [Direction] is declared in
    [smartie.scsi.constants], which is not among the sources; the spec
    has a data-direction flag with two values, and the code names the
    members [TO] and [FROM]. *)
Inductive Direction : Type := TO | FROM.

(** Modelled from the spec: [SCSIPassThroughDirect] and
    [SCSIPassThroughDirectWithBuffer] are declared in
    [smartie.scsi.structures], which is not among the sources.  The spec
    has the header as the fixed structure of the platform's pass-through
    interface: [length] is a 16-bit field, [cdb_length], [sense_info_length]
    and [data_in] are one byte each, [data_transfer_length],
    [timeout_value] and [sense_info_offset] are 32-bit fields,
    [data_buffer] is a pointer and [cdb] is 16 bytes.  The records hold
    the fields [issue_command] assigns; the sense region is the trailing
    buffer of the header. *)
Record SCSIPassThroughDirect : Type :=
  { length_ : Z;
    data_in : Z;
    data_transfer_length : Z;
    data_buffer : Z;
    cdb_length : Z;
    cdb : bytes;
    timeout_value : Z;
    sense_info_length : Z;
    sense_info_offset : Z }.

Record SCSIPassThroughDirectWithBuffer : Type :=
  { sptd : SCSIPassThroughDirect; sense : bytes }.

(** [{Direction.TO: 0, Direction.FROM: 1}.get(direction)] *)
Definition data_in_of (direction : Direction) : Z :=
  match direction with
  | TO => 0
  | FROM => 1
  end.

Definition IOCTL_SCSI_PASS_THROUGH_DIRECT : Z := 0x4D014.

(** The command block as transmitted: [(c_ubyte * 16).from_buffer_copy(
    bytearray(command).ljust(16, b'\x00'))]. *)
Definition make_cdb (command : bytes) : result bytes :=
  from_buffer_copy (c_array c_ubyte 16) (ljust 16 x00 command).

Section OS.

(** The operating system (and the device behind it) as a state
    machine, with the kernel32 entry points the module calls. *)
Variable OS : Type.
Variable CreateFileW : string -> OS -> Z * OS.
Variable CloseHandle : Z -> OS -> OS.
Variable DeviceIoControl :
  option Z -> Z -> SCSIPassThroughDirectWithBuffer -> OS ->
  Z * SCSIPassThroughDirectWithBuffer * OS.
Variable get_last_error : OS -> Z.

(** [SCSIDevice.parse_sense], defined in [smartie.scsi]: it may raise,
    and what it returns is dropped here. *)
Variable parse_sense : bytes -> result unit.

(** Layout constants of the header structures. *)
Variable sizeof_SCSIPassThroughDirect : Z.
Variable sense_size : Z.
Variable sense_offset : Z.

(** The calls made to the collaborators, in order. *)
Inductive event : Type :=
| Call_CreateFileW (path : string)
| Call_CloseHandle (handle : Z)
| Call_DeviceIoControl (handle : option Z) (code : Z)
    (header : SCSIPassThroughDirectWithBuffer)
| Call_parse_sense (sense_blob : bytes).

(** The device object ([self.path], [self.fd]), the operating system,
    and the calls so far. *)
Record state : Type :=
  { path : string; fd : option Z; os : OS; calls : list event }.

Definition set_fd (v : option Z) : M state unit :=
  fun st => (Ok tt, {| path := path st; fd := v; os := os st;
                       calls := calls st |}).

Definition call_CreateFileW (p : string) : M state Z :=
  fun st =>
    let '(h, os') := CreateFileW p (os st) in
    (Ok h, {| path := path st; fd := fd st; os := os';
              calls := calls st ++ [Call_CreateFileW p] |}).

Definition call_CloseHandle (h : Z) : M state unit :=
  fun st =>
    (Ok tt, {| path := path st; fd := fd st; os := CloseHandle h (os st);
               calls := calls st ++ [Call_CloseHandle h] |}).

Definition call_DeviceIoControl (h : option Z) (code : Z)
           (header : SCSIPassThroughDirectWithBuffer)
  : M state (Z * SCSIPassThroughDirectWithBuffer) :=
  fun st =>
    let '(r, header', os') := DeviceIoControl h code header (os st) in
    (Ok (r, header'),
     {| path := path st; fd := fd st; os := os';
        calls := calls st ++ [Call_DeviceIoControl h code header] |}).

Definition call_parse_sense (blob : bytes) : M state unit :=
  fun st =>
    (parse_sense blob,
     {| path := path st; fd := fd st; os := os st;
        calls := calls st ++ [Call_parse_sense blob] |}).

Definition last_error : M state Z :=
  fun st => (Ok (get_last_error (os st)), st).

(** [WindowsSCSIDevice.__enter__] *)
Definition __enter__ : M state unit :=
  self <- get ;;
  match fd self with
  | Some _ => raise IOError_already_open
  | None =>
      h <- call_CreateFileW (path self) ;;
      set_fd (Some h) ;;;
      if h =? -1
      then (code <- last_error ;; raise (WinError code))
      else ret tt
  end.

(** [WindowsSCSIDevice.__exit__] *)
Definition __exit__ : M state bool :=
  self <- get ;;
  match fd self with
  | Some h =>
      call_CloseHandle h ;;;
      set_fd None ;;;
      ret false
  | None => ret false
  end.

(** The header [issue_command] builds around the command block.  Each
    integer field keeps the low bits of what is assigned to it, on the width
    of the field. *)
Definition build_header (direction : Direction) (command : bytes)
           (data : cobject) (timeout : Z) (cdb : bytes)
  : SCSIPassThroughDirectWithBuffer :=
  {| sptd :=
       {| length_ := NVMe.store c_ushort sizeof_SCSIPassThroughDirect;
          data_in := NVMe.store c_ubyte (data_in_of direction);
          data_transfer_length := NVMe.store c_uint32 (sizeof_obj data);
          data_buffer := NVMe.store c_uint64 (addressof data);
          cdb_length := NVMe.store c_ubyte (Z.of_nat (length command));
          cdb := cdb;
          timeout_value := NVMe.store c_uint32 timeout;
          sense_info_length := NVMe.store c_ubyte sense_size;
          sense_info_offset := NVMe.store c_uint32 sense_offset |};
     sense := repeat x00 (Z.to_nat sense_size) |}.

(** [WindowsSCSIDevice.issue_command] *)
Definition issue_command (direction : Direction) (command : bytes)
           (data : cobject) (timeout : Z) : M state bytes :=
  cdb <- lift (make_cdb command) ;;
  let header_with_buffer :=
    build_header direction command data timeout cdb in
  self <- get ;;
  '(result, header_with_buffer) <-
    call_DeviceIoControl (fd self) IOCTL_SCSI_PASS_THROUGH_DIRECT
                         header_with_buffer ;;
  call_parse_sense (sense header_with_buffer) ;;;
  if result =? 0
  then (code <- last_error ;; raise (WinError code))
  else ret (sense header_with_buffer).

End OS.

Arguments path {OS} _.
Arguments fd {OS} _.
Arguments os {OS} _.
Arguments calls {OS} _.

End WindowsSCSI.

(* ================================================================== *)
(** * Scripted collaborators                                          *)
(* ================================================================== *)

(** Concrete devices and a concrete operating system, on which the
    definitions above can be run. *)
Module Scripted.
Import Py Ctypes Structures NVMe WindowsSCSI.
Local Open Scope string_scope.
Local Open Scope list_scope.
Local Open Scope Z_scope.

Definition heap : cstruct -> Z := fun _ => 0x7F3A00001000.

Definition response_to (c : AdminCommand) : NVMeResponse :=
  {| succeeded := Some true; command_spec := Some 0;
     status_field := Some [x00; x00]; command := c;
     bytes_transferred := None; platform_header := None |}.

Definition unknown_response (c : AdminCommand) : NVMeResponse :=
  {| succeeded := None; command_spec := None; status_field := None;
     command := c; bytes_transferred := None; platform_header := None |}.

(** A device that answers every command by transferring [page]. *)
Definition device (page : bytes)
  : AdminCommand -> result (bytes * NVMeResponse) :=
  fun c => Ok (page, response_to c).

(** The head of an identify page: vendor ids, serial number, model. *)
Definition identify_page (serial_number model_number : bytes) : bytes :=
  [x86; x80; x86; x80] ++ serial_number ++ model_number.

Definition padded (width : nat) (fill : byte) (text : string) : bytes :=
  ljust width fill (bytes_of_string text).

(** The head of a SMART page: no warnings, then the temperature. *)
Definition smart_page (kelvin_low kelvin_high : byte) : bytes :=
  [x00; kelvin_low; kelvin_high; x64; x0a; x01].

(** A 512-byte buffer and one of 262148 bytes. *)
Definition buffer_512 : cobject :=
  {| address := 0x7F3A00002000; contents := repeat x00 512 |}.

Definition buffer_262148 : cobject :=
  {| address := 0x7F3A00100000; contents := repeat x00 (Z.to_nat 262148) |}.

(** An operating system that follows a script: the handle [CreateFileW]
    returns, what [DeviceIoControl] returns and leaves in the sense
    region, and the last-error code.  Its state is the list of open
    handles. *)
Record script : Type :=
  { open_handle : Z; ioctl_result : Z; ioctl_sense : bytes;
    error_code : Z }.

Definition OS : Type := list Z.

Definition CreateFileW (sc : script) (path : string) (os : OS) : Z * OS :=
  (open_handle sc, if open_handle sc =? -1 then os else open_handle sc :: os).

Definition CloseHandle (h : Z) (os : OS) : OS :=
  filter (fun h' => negb (h' =? h)) os.

Definition DeviceIoControl (sc : script) (h : option Z) (code : Z)
           (header : SCSIPassThroughDirectWithBuffer) (os : OS)
  : Z * SCSIPassThroughDirectWithBuffer * OS :=
  (ioctl_result sc,
   {| sptd := sptd header; sense := ioctl_sense sc |}, os).

Definition get_last_error (sc : script) (os : OS) : Z := error_code sc.

Definition parse_sense (blob : bytes) : result unit := Ok tt.

(** A [parse_sense] that finds an error in every sense blob. *)
Definition refusing_parse_sense (blob : bytes) : result unit :=
  Raise (ForeignError 1).

Definition working : script :=
  {| open_handle := 420; ioctl_result := 1;
     ioctl_sense := [x70; x00; x00; x00]; error_code := 0 |}.

Definition failing : script :=
  {| open_handle := -1; ioctl_result := 0;
     ioctl_sense := [x00; x00; x00; x00]; error_code := 5 |}.

Definition closed_device : state OS :=
  {| path := "\\.\PhysicalDrive0"; fd := None; os := []; calls := [] |}.

Definition open_device : state OS :=
  {| path := "\\.\PhysicalDrive0"; fd := Some 420; os := [420];
     calls := [] |}.

(** INQUIRY, six bytes; and a block of seventeen bytes. *)
Definition inquiry : bytes := [x12; x00; x00; x00; x60; x00].


End Scripted.

(* ================================================================== *)
(** * Properties                                                      *)
(* ================================================================== *)

Import Py Ctypes Structures NVMe.
Local Open Scope string_scope.
Local Open Scope list_scope.
Local Open Scope Z_scope.

(** ** Layout of the structures *)

Lemma sizeof_NVMeCQEStatusField : sizeof NVMeCQEStatusField = 2.
Proof. reflexivity. Qed.

Lemma sizeof_NVMeIdentifyResponse : sizeof NVMeIdentifyResponse = 4096.
Proof. reflexivity. Qed.

Lemma sizeof_SMARTPageResponse : sizeof SMARTPageResponse = 512.
Proof. reflexivity. Qed.

Lemma le_encode_length (n : nat) (v : Z) : length (le_encode n v) = n.
Proof.
  revert v; induction n as [|n IH]; intros v; simpl; [reflexivity|].
  now rewrite IH.
Qed.

Lemma command_bytes_length (c : AdminCommand) :
  length (command_bytes c) = 72%nat.
Proof.
  unfold command_bytes.
  repeat rewrite length_app.
  repeat rewrite le_encode_length.
  reflexivity.
Qed.

(** C2, as the specification states it: the admin command structure is 64
    bytes long.  It is not. *)
Lemma NVMeAdminCommand_is_not_64_bytes : sizeof NVMeAdminCommand <> 64.
Proof. vm_compute. discriminate. Qed.

(** C2, amended: the admin command structure, packed, lays its fields out
    back to back in declaration order -- opcode(1), flags(1), reserved(2),
    nsid(4), cdw2(4), cdw3(4), metadata(8), addr(8), metadata_len(4),
    data_len(4), cdw10..cdw15(4 each), timeout_ms(4), result(4) -- and
    occupies exactly 72 bytes: the size of every instance's byte image, and
    the size the Linux ioctl number carries in bits 16..29. *)
Theorem NVMeAdminCommand_is_72_bytes :
  sizeof NVMeAdminCommand = 72
  /\ map (fun p => (p_name p, p_offset p, p_size p)) (layout NVMeAdminCommand)
     = [ ("opcode", 0, 1); ("flags", 1, 1); ("reserved_1", 2, 2);
         ("nsid", 4, 4); ("cdw2", 8, 4); ("cdw3", 12, 4);
         ("metadata", 16, 8); ("addr", 24, 8);
         ("metadata_len", 32, 4); ("data_len", 36, 4);
         ("cdw10", 40, 4); ("cdw11", 44, 4); ("cdw12", 48, 4);
         ("cdw13", 52, 4); ("cdw14", 56, 4); ("cdw15", 60, 4);
         ("timeout_ms", 64, 4); ("result", 68, 4) ]
  /\ (forall c : AdminCommand,
        Z.of_nat (length (command_bytes c)) = sizeof NVMeAdminCommand)
  /\ Z.land (Z.shiftr IOCTL_NVMe_ADMIN_CMD 16) 0x3FFF = sizeof NVMeAdminCommand.
Proof.
  split; [reflexivity|].
  split; [reflexivity|].
  split; [|reflexivity].
  intros c. rewrite command_bytes_length. reflexivity.
Qed.

(** ** Decoding *)

Lemma byte_val_range (b : byte) : 0 <= byte_val b < 256.
Proof.
  unfold byte_val.
  pose proof (Byte.to_N_bounded b) as H.
  lia.
Qed.

Lemma byte_val_zero (b : byte) : byte_val b = 0 <-> b = x00.
Proof.
  split.
  - intros H. unfold byte_val in H.
    assert (E : Byte.to_N b = Byte.to_N x00) by (simpl; lia).
    apply (f_equal Byte.of_N) in E.
    rewrite !Byte.of_to_N in E. now inversion E.
  - intros ->. reflexivity.
Qed.

Lemma from_buffer_copy_short (t : ctype) (source : bytes) :
  Z.of_nat (length source) < ct_size t ->
  from_buffer_copy t source
  = Raise (ValueError_buffer_too_small (Z.of_nat (length source)) (ct_size t)).
Proof.
  intros H. unfold from_buffer_copy.
  apply Z.ltb_lt in H. now rewrite H.
Qed.

Lemma from_buffer_copy_enough (t : ctype) (source : bytes) :
  ct_size t <= Z.of_nat (length source) ->
  from_buffer_copy t source = Ok (firstn (Z.to_nat (ct_size t)) source).
Proof.
  intros H. unfold from_buffer_copy.
  apply Z.ltb_ge in H. now rewrite H.
Qed.

(** Reads a named field off a buffer whose spine is known: the layout is
    evaluated, the bytes are left as they are. *)
Ltac read_field :=
  unfold get_field, get_array;
  match goal with
  | |- context [find ?f ?l] =>
      let r := eval vm_compute in (find f l) in change (find f l) with r
  end;
  unfold read_placed, slice; cbn [p_offset p_size p_bits p_bitofs];
  repeat match goal with
    | |- context [Z.ones ?w] =>
        let r := eval vm_compute in (Z.ones w) in change (Z.ones w) with r
    end;
  repeat match goal with
    | |- context [Z.to_nat ?w] =>
        let r := eval vm_compute in (Z.to_nat w) in
        change (Z.to_nat w) with r
    end;
  cbn [firstn skipn le_decode].

(** The status structure read off its two bytes: the code is the first
    byte, the type the three low bits of the second, and so on upwards. *)
Lemma status_fields_of_bytes (b0 b1 : byte) :
  status_code [b0; b1] = byte_val b0
  /\ status_code_type [b0; b1] = Z.land (byte_val b1) 7
  /\ cmd_retry_delay [b0; b1] = Z.land (Z.shiftr (byte_val b1) 3) 3
  /\ more [b0; b1] = Z.land (Z.shiftr (byte_val b1) 5) 1
  /\ do_not_retry [b0; b1] = Z.land (Z.shiftr (byte_val b1) 6) 1.
Proof.
  unfold status_code, status_code_type, cmd_retry_delay, more, do_not_retry.
  repeat split; read_field; now rewrite ?Z.mul_0_r, ?Z.add_0_r, ?Z.shiftr_0_r.
Qed.

Lemma status_decode_enough (status_blob : bytes) :
  (2 <= length status_blob)%nat ->
  from_buffer_copy (c_struct NVMeCQEStatusField) status_blob
  = Ok (firstn 2 status_blob).
Proof.
  intros H.
  rewrite from_buffer_copy_enough.
  - reflexivity.
  - change (ct_size (c_struct NVMeCQEStatusField)) with 2. lia.
Qed.

(** C1: [parse_status_filed] decodes the first two bytes of the blob as a
    status structure (the code is the first byte, the type the three low
    bits of the second); it raises [NVMeStatusFieldError] carrying the status
    code, the status code type and the structure exactly when one of the
    two is not zero, and returns the structure otherwise.  [00 00] parses
    to a structure with all fields zero; [02 01] (code 2, type 1) raises
    with (2, 1). *)
Theorem parse_status_filed_spec (status_blob : bytes) :
  (2 <= length status_blob)%nat ->
  let field := firstn 2 status_blob in
  from_buffer_copy (c_struct NVMeCQEStatusField) status_blob = Ok field
  /\ (forall b0 b1 rest, status_blob = b0 :: b1 :: rest ->
      status_code field = byte_val b0
      /\ status_code_type field = Z.land (byte_val b1) 7)
  /\ (status_code field <> 0 \/ status_code_type field <> 0 ->
      parse_status_filed status_blob
      = Raise (NVMeStatusFieldError (status_code field)
                                    (status_code_type field) field))
  /\ (status_code field = 0 /\ status_code_type field = 0 ->
      parse_status_filed status_blob = Ok field)
  /\ ((exists e, parse_status_filed status_blob = Raise e)
      <-> (status_code field <> 0 \/ status_code_type field <> 0))
  /\ parse_status_filed [x00; x00] = Ok [x00; x00]
  /\ (status_code [x00; x00], status_code_type [x00; x00],
      cmd_retry_delay [x00; x00], more [x00; x00], do_not_retry [x00; x00])
     = (0, 0, 0, 0, 0)
  /\ (status_code [x02; x01], status_code_type [x02; x01]) = (2, 1)
  /\ parse_status_filed [x02; x01]
     = Raise (NVMeStatusFieldError 2 1 [x02; x01]).
Proof.
  intros Hlen field.
  assert (Hparse :
    parse_status_filed status_blob
    = if negb (status_code field =? 0) || negb (status_code_type field =? 0)
      then Raise (NVMeStatusFieldError (status_code field)
                                       (status_code_type field) field)
      else Ok field).
  { unfold parse_status_filed.
    rewrite (status_decode_enough status_blob Hlen). reflexivity. }
  split; [exact (status_decode_enough status_blob Hlen)|].
  split.
  { intros b0 b1 rest E. subst field. rewrite E. cbn [firstn].
    pose proof (status_fields_of_bytes b0 b1) as (H0 & H1 & _).
    now split. }
  repeat split.
  - intros Hnz. rewrite Hparse.
    destruct (Z.eqb_spec (status_code field) 0) as [E0|N0];
      destruct (Z.eqb_spec (status_code_type field) 0) as [E1|N1];
      simpl; try reflexivity.
    destruct Hnz; contradiction.
  - intros [E0 E1]. rewrite Hparse, E0, E1. reflexivity.
  - intros [e He]. rewrite Hparse in He.
    destruct (Z.eqb_spec (status_code field) 0) as [E0|N0];
      destruct (Z.eqb_spec (status_code_type field) 0) as [E1|N1];
      simpl in He; try discriminate; auto.
  - intros Hnz. rewrite Hparse.
    destruct (Z.eqb_spec (status_code field) 0) as [E0|N0];
      destruct (Z.eqb_spec (status_code_type field) 0) as [E1|N1];
      simpl; eauto.
    destruct Hnz; contradiction.
Qed.

Lemma parse_status_filed_spec_witness :
  (2 <= length [x02; x09; xff])%nat
  /\ parse_status_filed [x02; x09; xff]
     = Raise (NVMeStatusFieldError 2 1 [x02; x09])
  /\ parse_status_filed [x00; xf8] = Ok [x00; xf8].
Proof.
  split; [simpl; lia|].
  split.
  - apply (parse_status_filed_spec [x02; x09; xff]).
    + simpl; lia.
    + left. vm_compute. discriminate.
  - apply (parse_status_filed_spec [x00; xf8]).
    + simpl; lia.
    + split; reflexivity.
Defined.

(** C6: decoding a byte sequence shorter than the structure's size fails:
    [from_buffer_copy] raises the buffer-too-small [ValueError] for every
    type and every source shorter than the type, and so does
    [parse_status_filed] on a status blob of fewer than two bytes. *)
Theorem short_input_is_malformed (t : ctype) (source : bytes) :
  Z.of_nat (length source) < ct_size t ->
  from_buffer_copy t source
  = Raise (ValueError_buffer_too_small (Z.of_nat (length source)) (ct_size t))
  /\ (t = c_struct NVMeCQEStatusField ->
      parse_status_filed source
      = Raise (ValueError_buffer_too_small (Z.of_nat (length source)) 2)).
Proof.
  intros Hshort. split.
  - now apply from_buffer_copy_short.
  - intros ->. unfold parse_status_filed.
    rewrite (from_buffer_copy_short _ _ Hshort). reflexivity.
Qed.

Lemma short_input_is_malformed_witness :
  Z.of_nat (length [x07]) < ct_size (c_struct NVMeCQEStatusField)
  /\ from_buffer_copy (c_struct NVMeCQEStatusField) [x07]
     = Raise (ValueError_buffer_too_small 1 2)
  /\ parse_status_filed [x07] = Raise (ValueError_buffer_too_small 1 2).
Proof.
  assert (H : Z.of_nat (length [x07]) < ct_size (c_struct NVMeCQEStatusField))
    by (vm_compute; reflexivity).
  split; [exact H|].
  split.
  - exact (proj1 (short_input_is_malformed _ [x07] H)).
  - exact (proj2 (short_input_is_malformed _ [x07] H) eq_refl).
Defined.

(** C10: truth-testing a response goes through [__bool__], which hands
    back the [succeeded] field as it is.  When the field is [None] the test
    yields neither true nor false: it raises a [TypeError].  When the field
    is a boolean the test yields that boolean. *)
Theorem truth_of_unknown_response (r : NVMeResponse) :
  NVMeResponse__bool__ r = of_optional_bool (succeeded r)
  /\ (succeeded r = None ->
      truth r = Raise TypeError_bool_returned_None
      /\ forall b : bool, truth r <> Ok b)
  /\ (forall b : bool, succeeded r = Some b -> truth r = Ok b).
Proof.
  split; [reflexivity|]. split.
  - intros Hnone. unfold truth, NVMeResponse__bool__. rewrite Hnone.
    split; [reflexivity|]. intros b. discriminate.
  - intros b Hb. unfold truth, NVMeResponse__bool__. now rewrite Hb.
Qed.

Lemma truth_of_unknown_response_witness :
  succeeded (Scripted.unknown_response (identify_command Scripted.buffer_512))
  = None
  /\ truth (Scripted.unknown_response (identify_command Scripted.buffer_512))
     = Raise TypeError_bool_returned_None
  /\ truth (Scripted.response_to (identify_command Scripted.buffer_512))
     = Ok true.
Proof.
  split; [reflexivity|]. split.
  - apply (truth_of_unknown_response
             (Scripted.unknown_response (identify_command Scripted.buffer_512))).
    reflexivity.
  - apply (truth_of_unknown_response
             (Scripted.response_to (identify_command Scripted.buffer_512))).
    reflexivity.
Defined.

(** ** The log page command *)

Lemma lor_below_pow2 (a b n : Z) :
  0 <= n -> 0 <= a < 2 ^ n -> 0 <= b < 2 ^ n -> 0 <= Z.lor a b < 2 ^ n.
Proof.
  intros Hn [Ha0 Ha] [Hb0 Hb].
  split; [now apply Z.lor_nonneg|].
  destruct (Z.eq_dec (Z.lor a b) 0) as [E|NE].
  - rewrite E. now apply Z.pow_pos_nonneg.
  - assert (Hpos : 0 < Z.lor a b)
      by (pose proof (proj2 (Z.lor_nonneg a b) (conj Ha0 Hb0)); lia).
    assert (Hn' : 0 < n).
    { destruct (Z.eq_dec n 0) as [->|]; [|lia].
      change (2 ^ 0) with 1 in Ha, Hb.
      assert (a = 0) by lia. assert (b = 0) by lia. subst. now elim NE. }
    apply Z.log2_lt_pow2; [exact Hpos|].
    rewrite Z.log2_lor by assumption.
    apply Z.max_lub_lt.
    + destruct (Z.eq_dec a 0) as [->|Na]; [exact Hn'|].
      apply Z.log2_lt_pow2; lia.
    + destruct (Z.eq_dec b 0) as [->|Nb]; [exact Hn'|].
      apply Z.log2_lt_pow2; lia.
Qed.

Lemma store_in_range (t : ctype) (v : Z) :
  0 <= v < 2 ^ (8 * ct_size t) -> store t v = v.
Proof. intros H. unfold store. now apply Z.mod_small. Qed.

(** What the dword-count expression comes to for a buffer of at most
    256 KiB whose size is a positive multiple of four. *)
Lemma numd_in_range (size : Z) :
  0 < size -> size mod 4 = 0 -> size <= 262144 ->
  0 <= Z.shiftl (size / 4 - 1) 16 < 2 ^ 32.
Proof.
  intros Hpos Hmul Hmax.
  assert (Hq : 1 <= size / 4 <= 65536).
  { pose proof (Z.div_mod size 4 ltac:(lia)) as E. lia. }
  rewrite Z.shiftl_mul_pow2 by lia.
  change (2 ^ 16) with 65536. change (2 ^ 32) with 4294967296. lia.
Qed.

Section LogPage.

Variable issue_admin_command : AdminCommand -> result (bytes * NVMeResponse).
Variable alloc : cstruct -> Z.

(** C3, amended: [read_log_page] hands [issue_admin_command] a command
    with opcode GET_LOG_PAGE (0x02) and namespace id 0xFFFFFFFF, whose
    data pointer, data length and cdw10 fields hold the low 64, 32 and 32
    bits of the destination's address, its size, and
    [log_page_id | (((size / 4) - 1) << 16)].  When the address is a
    64-bit address, the page id is below 2^32 and the size is a positive
    multiple of four of at most 262144 bytes, the three fields hold those
    values themselves.  For page 0x02 and a 512-byte destination cdw10 is
    0x007F0002, and [smart] is [read_log_page] of 0x02 and a fresh SMART
    page. *)
Theorem read_log_page_command_spec (log_page_id : Z) (data : cobject) :
  let size := sizeof_obj data in
  let cdw10 := Z.lor log_page_id (Z.shiftl (size / 4 - 1) 16) in
  let cmd := read_log_page_command log_page_id data in
  read_log_page issue_admin_command log_page_id data
  = bind (issue_admin_command cmd)
         (fun '(written, response) => Ok (fill data written, response))
  /\ cmd_opcode cmd = 0x02
  /\ cmd_nsid cmd = 0xFFFFFFFF
  /\ cmd_addr cmd = addressof data mod 2 ^ 64
  /\ cmd_data_len cmd = size mod 2 ^ 32
  /\ cmd_cdw10 cmd = cdw10 mod 2 ^ 32
  /\ (0 <= addressof data < 2 ^ 64 ->
      0 <= log_page_id < 2 ^ 32 ->
      0 < size -> size mod 4 = 0 -> size <= 262144 ->
      cmd_addr cmd = addressof data
      /\ cmd_data_len cmd = size
      /\ cmd_cdw10 cmd = cdw10)
  /\ (log_page_id = 0x02 -> size = 512 -> cmd_cdw10 cmd = 0x007F0002)
  /\ smart issue_admin_command alloc
     = read_log_page issue_admin_command 0x02 (new_object alloc SMARTPageResponse)
  /\ sizeof_obj (new_object alloc SMARTPageResponse) = 512.
Proof.
  intros size cdw10 cmd.
  split; [reflexivity|].
  split; [reflexivity|].
  split; [reflexivity|].
  split; [reflexivity|].
  split; [reflexivity|].
  split; [reflexivity|].
  split; [|split; [|split; [reflexivity|reflexivity]]].
  - intros Haddr Hid Hpos Hmul Hmax.
    subst cmd. unfold read_log_page_command, NVMEAdminCommand.
    cbn [cmd_addr cmd_data_len cmd_cdw10].
    fold size. fold cdw10.
    split; [|split].
    + apply store_in_range. exact Haddr.
    + apply store_in_range. change (2 ^ (8 * ct_size c_uint32)) with (2 ^ 32).
      change (2 ^ 32) with 4294967296. lia.
    + apply store_in_range. change (8 * ct_size c_uint32) with 32.
      subst cdw10. apply lor_below_pow2; [lia|exact Hid|].
      now apply numd_in_range.
  - intros Hid Hsize.
    subst cmd. unfold read_log_page_command, NVMEAdminCommand.
    cbn [cmd_cdw10]. fold size. rewrite Hid, Hsize. reflexivity.
Qed.

End LogPage.

Lemma read_log_page_command_spec_witness :
  let cmd := read_log_page_command 0x02 Scripted.buffer_512 in
  cmd_addr cmd = 0x7F3A00002000
  /\ cmd_data_len cmd = 512
  /\ cmd_cdw10 cmd = Z.lor 0x02 (Z.shiftl (512 / 4 - 1) 16)
  /\ cmd_cdw10 cmd = 0x007F0002.
Proof.
  intros cmd.
  pose proof (read_log_page_command_spec
                (Scripted.device []) Scripted.heap 0x02 Scripted.buffer_512)
    as H.
  cbv zeta in H.
  destruct H as (_ & _ & _ & _ & _ & _ & Hexact & Hsmart & _).
  assert (Haddr : 0 <= addressof Scripted.buffer_512 < 2 ^ 64)
    by (vm_compute; split; [discriminate|reflexivity]).
  assert (Hid : 0 <= 0x02 < 2 ^ 32)
    by (vm_compute; split; [discriminate|reflexivity]).
  assert (Hpos : 0 < sizeof_obj Scripted.buffer_512) by reflexivity.
  assert (Hmul : sizeof_obj Scripted.buffer_512 mod 4 = 0) by reflexivity.
  assert (Hmax : sizeof_obj Scripted.buffer_512 <= 262144)
    by (vm_compute; discriminate).
  destruct (Hexact Haddr Hid Hpos Hmul Hmax) as (A & B & C).
  split; [exact A|]. split; [exact B|]. split; [exact C|].
  apply Hsmart; reflexivity.
Defined.

(** C3, as the specification states it: for every destination whose size
    is a positive multiple of four, cdw10 is
    [log_page_id | (((size / 4) - 1) << 16)].  For a destination of 262148
    bytes the expression is 0x100000002, and the 32-bit field holds 2. *)
Lemma read_log_page_cdw10_wraps :
  let data := Scripted.buffer_262148 in
  let cmd := read_log_page_command 0x02 data in
  0 < sizeof_obj data
  /\ sizeof_obj data mod 4 = 0
  /\ Z.lor 0x02 (Z.shiftl (sizeof_obj data / 4 - 1) 16) = 0x100000002
  /\ cmd_cdw10 cmd = 0x00000002
  /\ cmd_cdw10 cmd <> Z.lor 0x02 (Z.shiftl (sizeof_obj data / 4 - 1) 16).
Proof.
  vm_compute. repeat split; congruence.
Qed.

(** ** Trimming and decoding text fields *)

Lemma byte_in_blank (b : byte) :
  byte_in blank b = true <-> (b = x20 \/ b = x00).
Proof.
  unfold byte_in, blank. simpl. rewrite !orb_true_iff. split.
  - intros [H|[H|H]]; [left|right|discriminate]; now apply Byte.byte_dec_bl.
  - intros [->| ->]; [left|right; left]; reflexivity.
Qed.

Lemma byte_not_in_blank (b : byte) :
  byte_in blank b = false <-> (b <> x20 /\ b <> x00).
Proof.
  rewrite <- not_true_iff_false, byte_in_blank. tauto.
Qed.

Lemma lstrip_spec (chars l : bytes) :
  exists pre,
    l = pre ++ lstrip chars l
    /\ Forall (fun b => byte_in chars b = true) pre
    /\ (forall b t, lstrip chars l = b :: t -> byte_in chars b = false).
Proof.
  induction l as [|a l IH].
  - exists []. repeat split; [constructor|discriminate].
  - simpl. destruct (byte_in chars a) eqn:Ea.
    + destruct IH as (pre & Hl & Hpre & Hhd).
      exists (a :: pre). repeat split.
      * simpl. now rewrite <- Hl.
      * now constructor.
      * exact Hhd.
    + exists []. repeat split; [constructor|].
      intros b t E. now inversion E; subst.
Qed.

Lemma lstrip_skips (chars pre l : bytes) :
  Forall (fun b => byte_in chars b = true) pre ->
  lstrip chars (pre ++ l) = lstrip chars l.
Proof.
  induction 1 as [|a pre Ha _ IH]; simpl; [reflexivity|].
  now rewrite Ha.
Qed.

Lemma rstrip_spec (chars l : bytes) :
  exists post,
    l = rstrip chars l ++ post
    /\ Forall (fun b => byte_in chars b = true) post
    /\ (forall t b, rstrip chars l = t ++ [b] -> byte_in chars b = false).
Proof.
  destruct (lstrip_spec chars (rev l)) as (pre & Hl & Hpre & Hhd).
  exists (rev pre). unfold rstrip. repeat split.
  - rewrite <- rev_app_distr, <- Hl. now rewrite rev_involutive.
  - now apply Forall_rev.
  - intros t b E. apply (Hhd b (rev t)).
    rewrite <- (rev_involutive (lstrip chars (rev l))), E.
    now rewrite rev_app_distr.
Qed.

(** [strip] takes a run of the given bytes off each end and nothing else:
    what is left neither starts nor ends with one of them. *)
Lemma strip_spec (chars l : bytes) :
  exists pre post,
    l = pre ++ strip chars l ++ post
    /\ Forall (fun b => byte_in chars b = true) pre
    /\ Forall (fun b => byte_in chars b = true) post
    /\ (forall b t, strip chars l = b :: t -> byte_in chars b = false)
    /\ (forall t b, strip chars l = t ++ [b] -> byte_in chars b = false).
Proof.
  destruct (lstrip_spec chars l) as (pre & Hl & Hpre & Hhd).
  destruct (rstrip_spec chars (lstrip chars l)) as (post & Hm & Hpost & Hlast).
  exists pre, post. unfold strip. repeat split; try assumption.
  - now rewrite <- Hm.
  - intros b t E. apply (Hhd b (t ++ post)).
    rewrite Hm at 1. now rewrite E.
Qed.

(** A text that neither starts nor ends with a blank, padded on the right
    with blanks, is trimmed back to itself. *)
Lemma strip_right_padding (text pad : bytes) (first last : byte) (middle : bytes) :
  text = first :: middle ->
  rev text = last :: rev (removelast text) ->
  byte_in blank first = false ->
  byte_in blank last = false ->
  Forall (fun b => byte_in blank b = true) pad ->
  strip blank (text ++ pad) = text.
Proof.
  intros Htext Hrev Hfirst Hlast Hpad.
  unfold strip, rstrip.
  assert (E1 : lstrip blank (text ++ pad) = text ++ pad).
  { rewrite Htext. cbn [app lstrip]. now rewrite Hfirst. }
  rewrite E1, rev_app_distr.
  rewrite lstrip_skips by now apply Forall_rev.
  rewrite Hrev. cbn [lstrip]. rewrite Hlast.
  rewrite <- Hrev. apply rev_involutive.
Qed.

Lemma utf8_decode_ascii (l : bytes) :
  Forall (fun b => byte_val b < 128) l ->
  utf8_decode l = Ok (map byte_val l).
Proof.
  induction 1 as [|b l Hb _ IH]; [reflexivity|].
  cbn [utf8_decode map].
  apply Z.ltb_lt in Hb. rewrite Hb, IH. reflexivity.
Qed.

Lemma fill_length (o : cobject) (written : bytes) :
  length (contents (fill o written)) = length (contents o).
Proof.
  unfold fill. cbn [contents].
  rewrite length_app, length_firstn, length_skipn. lia.
Qed.

Lemma slice_length (buf : bytes) (off len : Z) :
  0 <= off -> 0 <= len -> off + len <= Z.of_nat (length buf) ->
  length (slice buf off len) = Z.to_nat len.
Proof.
  intros Hoff Hlen Hfit. unfold slice.
  rewrite length_firstn, length_skipn. lia.
Qed.

Ltac find_field :=
  unfold get_field, get_array;
  match goal with
  | |- context [find ?f ?l] =>
      let r := eval vm_compute in (find f l) in change (find f l) with r
  end;
  cbn [p_offset p_size p_bits p_bitofs].

Lemma new_object_length (alloc : cstruct -> Z) (s : cstruct) :
  length (contents (new_object alloc s)) = Z.to_nat (sizeof s).
Proof. unfold new_object, new. cbn [contents]. apply repeat_length. Qed.

Lemma blank_pointwise (l : bytes) :
  Forall (fun b => byte_in blank b = true) l
  <-> Forall (fun b => b = x20 \/ b = x00) l.
Proof.
  split; intros H; eapply Forall_impl; try exact H;
    intros b Hb; now apply byte_in_blank.
Qed.

Section Identity.

Variable issue_admin_command : AdminCommand -> result (bytes * NVMeResponse).
Variable alloc : cstruct -> Z.

(** C4, amended: for every identify response, [serial] and [model] take
    the 20-byte serial field (offset 4) and the 40-byte model field
    (offset 24), trim space and null bytes off both ends, and decode what
    is left as text.  Only a leading run and a trailing run of such bytes go:
    the field is that leading run, the trimmed text, and that trailing run,
    and the trimmed text neither starts nor ends with a space or a null.
    Trimmed text made of ASCII bytes decodes to the same characters, and
    "ABC123" followed by space or null padding yields exactly "ABC123". *)
Theorem serial_model_strip_both_ends (written : bytes) (response : NVMeResponse) :
  issue_admin_command (identify_command (new_object alloc NVMeIdentifyResponse))
  = Ok (written, response) ->
  let page := contents (fill (new_object alloc NVMeIdentifyResponse) written) in
  let serial_number := slice page 4 20 in
  let model_number := slice page 24 40 in
  (length serial_number = 20%nat /\ length model_number = 40%nat)
  /\ serial issue_admin_command alloc = utf8_decode (strip blank serial_number)
  /\ model issue_admin_command alloc = utf8_decode (strip blank model_number)
  /\ (forall field : bytes,
        field = serial_number \/ field = model_number ->
        exists pre post,
          field = pre ++ strip blank field ++ post
          /\ Forall (fun b => b = x20 \/ b = x00) pre
          /\ Forall (fun b => b = x20 \/ b = x00) post
          /\ (forall b t, strip blank field = b :: t -> b <> x20 /\ b <> x00)
          /\ (forall t b, strip blank field = t ++ [b] -> b <> x20 /\ b <> x00))
  /\ (forall field : bytes,
        Forall (fun b => byte_val b < 128) (strip blank field) ->
        text_of field = Ok (map byte_val (strip blank field)))
  /\ (forall pad : bytes,
        Forall (fun b => b = x20 \/ b = x00) pad ->
        text_of (bytes_of_string "ABC123" ++ pad) = Ok (str_of_string "ABC123")).
Proof.
  intros Hissue page serial_number model_number.
  assert (Hpage : Z.of_nat (length page) = 4096).
  { subst page. rewrite fill_length, new_object_length.
    rewrite sizeof_NVMeIdentifyResponse. reflexivity. }
  split; [|split; [|split; [|split; [|split]]]].
  - split.
    + subst serial_number. rewrite slice_length by lia. reflexivity.
    + subst model_number. rewrite slice_length by lia. reflexivity.
  - unfold serial, identify. rewrite Hissue. cbn [bind].
    unfold text_of. find_field. reflexivity.
  - unfold model, identify. rewrite Hissue. cbn [bind].
    unfold text_of. find_field. reflexivity.
  - intros field _.
    destruct (strip_spec blank field) as (pre & post & E & Hpre & Hpost & Hhd & Hlast).
    exists pre, post. repeat split; try (now apply blank_pointwise).
    + exact E.
    + apply byte_not_in_blank, (Hhd _ _ H).
    + apply byte_not_in_blank, (Hhd _ _ H).
    + apply byte_not_in_blank, (Hlast _ _ H).
    + apply byte_not_in_blank, (Hlast _ _ H).
  - intros field Hascii. unfold text_of. now apply utf8_decode_ascii.
  - intros pad Hpad. unfold text_of.
    rewrite (strip_right_padding (bytes_of_string "ABC123") pad x41 x33
               (bytes_of_string "BC123")); try reflexivity.
    now apply blank_pointwise.
Qed.

End Identity.

Lemma serial_model_strip_both_ends_witness :
  serial (Scripted.device
            (Scripted.identify_page (Scripted.padded 20 x20 "ABC123")
                                    (Scripted.padded 40 x00 "Disk 9")))
         Scripted.heap
  = Ok (str_of_string "ABC123")
  /\ text_of (bytes_of_string "ABC123" ++ [x20; x20; x00; x00])
     = Ok (str_of_string "ABC123").
Proof.
  set (page := Scripted.identify_page (Scripted.padded 20 x20 "ABC123")
                                      (Scripted.padded 40 x00 "Disk 9")).
  pose proof (serial_model_strip_both_ends
                (Scripted.device page) Scripted.heap page
                (Scripted.response_to
                   (identify_command
                      (new_object Scripted.heap NVMeIdentifyResponse)))
                eq_refl) as H.
  cbv zeta in H.
  destruct H as (_ & Hserial & _ & _ & _ & Hpad).
  split.
  - rewrite Hserial. vm_compute. reflexivity.
  - apply Hpad.
    repeat (constructor; [(left; reflexivity) || (right; reflexivity)|]).
    constructor.
Defined.

(** C4, as the specification states it: only trailing space and null
    bytes are trimmed, leading ones are kept.  A serial field that starts
    with two spaces comes out without them. *)
Lemma serial_drops_leading_blanks :
  let field := Scripted.padded 20 x20 "  ABC123" in
  let device :=
    Scripted.device
      (Scripted.identify_page field (Scripted.padded 40 x00 "Disk 9")) in
  length field = 20%nat
  /\ utf8_decode (rstrip blank field) = Ok (str_of_string "  ABC123")
  /\ serial device Scripted.heap = Ok (str_of_string "ABC123")
  /\ serial device Scripted.heap <> utf8_decode (rstrip blank field).
Proof.
  vm_compute. repeat split; congruence.
Qed.

(** ** Temperature *)

(** The literal 273.15 is the binary64 number nearest to 273.15: a 53-bit
    significand at exponent -44, less than half a unit in the last place
    away. *)
Lemma lit_273_15_nearest :
  exists m : positive,
    lit_273_15 = S754_finite false m (-44)
    /\ 2 ^ 52 <= Z.pos m < 2 ^ 53
    /\ 2 * Z.abs (100 * Z.pos m - 27315 * 2 ^ 44) < 100.
Proof.
  eexists. split; [reflexivity|]. vm_compute.
  repeat split; congruence.
Qed.

Lemma all_range_spec (P : Z -> bool) (start : Z) (count : nat) :
  all_range P start count = true ->
  forall i, start <= i < start + Z.of_nat count -> P i = true.
Proof.
  revert start; induction count as [|n IH]; intros start H i Hi.
  - simpl in Hi. lia.
  - cbn [all_range] in H. apply andb_true_iff in H as [H0 H1].
    destruct (Z.eq_dec i start) as [->|Hne]; [exact H0|].
    apply (IH (start + 1) H1). lia.
Qed.

(** Every 16-bit Kelvin value, one by one. *)
Lemma celsius_table :
  all_range (fun k =>
               match celsius k with
               | Ok c => c =? (if k <? 274 then k - 273 else k - 274)
               | Raise _ => false
               end)
            0 (Z.to_nat 65536) = true.
Proof. vm_compute. reflexivity. Qed.

(** [k - 273.15] truncated toward zero, for an integer [k]. *)
Lemma truncated_difference (k : Z) :
  Z.quot (100 * k - 27315) 100 = if k <? 274 then k - 273 else k - 274.
Proof.
  destruct (Z.ltb_spec k 274) as [Hlt|Hge].
  - assert (E : Z.quot (- (100 * k - 27315)) 100 = 273 - k).
    { symmetry. apply Z.quot_unique with (r := 15); lia. }
    rewrite Z.quot_opp_l in E by lia. lia.
  - symmetry. apply Z.quot_unique with (r := 85); lia.
Qed.

Lemma celsius_of_uint16 (kelvin : Z) :
  0 <= kelvin < 65536 ->
  celsius kelvin = Ok (Z.quot (100 * kelvin - 27315) 100).
Proof.
  intros Hk.
  pose proof (all_range_spec _ _ _ celsius_table kelvin) as T.
  cbv beta in T.
  rewrite Z2Nat.id in T by lia.
  specialize (T ltac:(lia)).
  rewrite truncated_difference.
  destruct (celsius kelvin) as [c|e]; [|discriminate].
  apply Z.eqb_eq in T. now subst.
Qed.

Lemma le_decode_range (l : bytes) :
  0 <= le_decode l < 256 ^ Z.of_nat (length l).
Proof.
  induction l as [|b l IH].
  - simpl. lia.
  - cbn [le_decode length]. rewrite Nat2Z.inj_succ, Z.pow_succ_r by lia.
    pose proof (byte_val_range b). lia.
Qed.

Section Temperature.

Variable issue_admin_command : AdminCommand -> result (bytes * NVMeResponse).
Variable alloc : cstruct -> Z.

(** C7: for every SMART page, with [kelvin] the 16-bit temperature field
    (bytes 1 and 2 of the page, little-endian), [temperature] returns
    [kelvin - 273.15] truncated toward zero -- the quotient, rounded toward
    zero, of [100 * kelvin - 27315] by 100 -- where the subtraction is the
    binary64 subtraction of the literal 273.15 from [float(kelvin)].  A
    field of 300 yields 26. *)
Theorem temperature_truncates_toward_zero
        (written : bytes) (response : NVMeResponse) :
  issue_admin_command
    (read_log_page_command 0x02 (new_object alloc SMARTPageResponse))
  = Ok (written, response) ->
  let page := contents (fill (new_object alloc SMARTPageResponse) written) in
  let kelvin := get_field SMARTPageResponse "temperature" page in
  kelvin = le_decode (slice page 1 2)
  /\ 0 <= kelvin < 65536
  /\ temperature issue_admin_command alloc
     = Ok (Z.quot (100 * kelvin - 27315) 100)
  /\ (kelvin = 300 -> temperature issue_admin_command alloc = Ok 26).
Proof.
  intros Hissue page kelvin.
  assert (Hpage : Z.of_nat (length page) = 512).
  { subst page. rewrite fill_length, new_object_length.
    rewrite sizeof_SMARTPageResponse. reflexivity. }
  assert (Hfield : kelvin = le_decode (slice page 1 2)).
  { subst kelvin. find_field. reflexivity. }
  assert (Hrange : 0 <= kelvin < 65536).
  { rewrite Hfield.
    pose proof (le_decode_range (slice page 1 2)) as R.
    rewrite slice_length in R by lia. exact R. }
  assert (Htemp : temperature issue_admin_command alloc = celsius kelvin).
  { unfold temperature, smart, read_log_page. rewrite Hissue. reflexivity. }
  repeat split; try assumption; try apply Hrange.
  - rewrite Htemp. now apply celsius_of_uint16.
  - intros E. rewrite Htemp, E. reflexivity.
Qed.

End Temperature.

Lemma temperature_truncates_toward_zero_witness :
  temperature (Scripted.device (Scripted.smart_page x2c x01)) Scripted.heap
  = Ok 26
  /\ temperature (Scripted.device (Scripted.smart_page x0e x01)) Scripted.heap
     = Ok (-3).
Proof.
  split.
  - pose proof (temperature_truncates_toward_zero
                  (Scripted.device (Scripted.smart_page x2c x01))
                  Scripted.heap _ _ eq_refl) as H.
    cbv zeta in H. destruct H as (_ & _ & _ & H300).
    apply H300. vm_compute. reflexivity.
  - pose proof (temperature_truncates_toward_zero
                  (Scripted.device (Scripted.smart_page x0e x01))
                  Scripted.heap _ _ eq_refl) as H.
    cbv zeta in H. destruct H as (_ & _ & Htemp & _).
    rewrite Htemp. vm_compute. reflexivity.
Defined.

(** ** The Windows SCSI device *)

Import WindowsSCSI.

Lemma ljust_length (width : nat) (fill : byte) (l : bytes) :
  length (ljust width fill l) = Nat.max width (length l).
Proof. unfold ljust. rewrite length_app, repeat_length. lia. Qed.

(** The command block is never refused: it is the first sixteen bytes of
    the command padded to sixteen. *)
Lemma make_cdb_total (command : bytes) :
  make_cdb command = Ok (firstn 16 (ljust 16 x00 command)).
Proof.
  unfold make_cdb. rewrite from_buffer_copy_enough.
  - reflexivity.
  - change (ct_size (c_array c_ubyte 16)) with 16.
    rewrite ljust_length. lia.
Qed.


Lemma cdb_of_short (command : bytes) :
  (length command <= 16)%nat ->
  firstn 16 (ljust 16 x00 command)
  = command ++ repeat x00 (16 - length command).
Proof.
  intros H. apply firstn_all2.
  fold (ljust 16 x00 command). rewrite ljust_length. lia.
Qed.

Lemma cdb_of_long (command : bytes) :
  (16 < length command)%nat ->
  firstn 16 (ljust 16 x00 command) = firstn 16 command.
Proof.
  intros H. unfold ljust.
  replace (16 - length command)%nat with 0%nat by lia.
  cbn [repeat]. now rewrite app_nil_r.
Qed.

Section Windows.

Variable OS : Type.
Variable CreateFileW : string -> OS -> Z * OS.
Variable CloseHandle : Z -> OS -> OS.
Variable DeviceIoControl :
  option Z -> Z -> SCSIPassThroughDirectWithBuffer -> OS ->
  Z * SCSIPassThroughDirectWithBuffer * OS.
Variable get_last_error : OS -> Z.
Variable parse_sense : bytes -> result unit.
Variable sizeof_SCSIPassThroughDirect : Z.
Variable sense_size : Z.
Variable sense_offset : Z.

Abbreviation enter := (__enter__ OS CreateFileW get_last_error).
Abbreviation exit := (__exit__ OS CloseHandle).
Abbreviation issue :=
  (issue_command OS DeviceIoControl get_last_error parse_sense
                 sizeof_SCSIPassThroughDirect sense_size sense_offset).
Abbreviation header_of :=
  (build_header sizeof_SCSIPassThroughDirect sense_size sense_offset).

(** What [issue_command] does, step by step. *)
Lemma issue_command_unfold (direction : Direction) (command : bytes)
      (data : cobject) (timeout : Z) (st : state OS) :
  let header :=
    header_of direction command data timeout
              (firstn 16 (ljust 16 x00 command)) in
  let reply :=
    DeviceIoControl (fd st) IOCTL_SCSI_PASS_THROUGH_DIRECT header (os st) in
  let result := fst (fst reply) in
  let returned := snd (fst reply) in
  let st' :=
    {| path := path st; fd := fd st; os := snd reply;
       calls := calls st
                ++ [Call_DeviceIoControl (fd st)
                                         IOCTL_SCSI_PASS_THROUGH_DIRECT header]
                ++ [Call_parse_sense (sense returned)] |} in
  issue direction command data timeout st
  = (match parse_sense (sense returned) with
     | Raise e => Raise e
     | Ok _ =>
         if result =? 0
         then Raise (WinError (get_last_error (snd reply)))
         else Ok (sense returned)
     end, st').
Proof.
  intros header reply result returned st'.
  unfold issue_command, mbind, lift, get.
  rewrite make_cdb_total.
  unfold call_DeviceIoControl. cbn [fd os path calls].
  fold header. fold reply.
  destruct reply as [[r h] o] eqn:Ereply.
  subst result returned st'. cbn [fst snd].
  unfold call_parse_sense. cbn [fd os path calls].
  rewrite <- app_assoc.
  destruct (parse_sense (sense h)) as [u|e]; [|reflexivity].
  destruct (r =? 0); reflexivity.
Qed.


(** C8: [__enter__] on a device whose handle is set raises the
    already-open [IOError] and changes nothing.  On a closed device it calls
    [CreateFileW]: when that returns -1 it raises [WinError] with the last
    error code, otherwise it succeeds and keeps the handle.  [__exit__]
    never raises and leaves the handle cleared; on a closed device it changes
    nothing, so a second [__exit__] is a no-op; on an open device it calls
    [CloseHandle] on the handle.  After [__exit__], [__enter__] is not
    refused: it succeeds whenever [CreateFileW] does. *)
Theorem device_lifecycle (st : state OS) :
  let opened := CreateFileW (path st) (os st) in
  let closed := snd (exit st) in
  let reopened := CreateFileW (path closed) (os closed) in
  (forall h, fd st = Some h -> enter st = (Raise IOError_already_open, st))
  /\ (fd st = None -> fst opened = -1 ->
      fst (enter st) = Raise (WinError (get_last_error (snd opened))))
  /\ (fd st = None -> fst opened <> -1 ->
      fst (enter st) = Ok tt /\ fd (snd (enter st)) = Some (fst opened))
  /\ fst (exit st) = Ok false
  /\ fd closed = None
  /\ (fd st = None -> exit st = (Ok false, st))
  /\ (forall h, fd st = Some h ->
      calls closed = calls st ++ [Call_CloseHandle h]
      /\ os closed = CloseHandle h (os st))
  /\ exit closed = (Ok false, closed)
  /\ (fst reopened <> -1 ->
      fst (enter closed) = Ok tt
      /\ fd (snd (enter closed)) = Some (fst reopened)).
Proof.
  intros opened closed reopened.
  assert (Henter : forall s : state OS,
             fd s = None ->
             enter s
             = (if fst (CreateFileW (path s) (os s)) =? -1
                then Raise (WinError
                              (get_last_error (snd (CreateFileW (path s) (os s)))))
                else Ok tt,
                {| path := path s;
                   fd := Some (fst (CreateFileW (path s) (os s)));
                   os := snd (CreateFileW (path s) (os s));
                   calls := calls s ++ [Call_CreateFileW (path s)] |})).
  { intros s Hs.
    unfold __enter__, mbind, get. rewrite Hs.
    unfold call_CreateFileW.
    destruct (CreateFileW (path s) (os s)) as [h o].
    cbn [fst snd set_fd path fd os calls].
    destruct (h =? -1); reflexivity. }
  assert (Hclosed : fd closed = None).
  { subst closed. unfold __exit__, mbind, get.
    destruct (fd st) as [h|] eqn:E; [reflexivity|exact E]. }
  assert (Hexit : forall s : state OS, fd s = None -> exit s = (Ok false, s)).
  { intros s Hs. unfold __exit__, mbind, get. now rewrite Hs. }
  split; [|split; [|split; [|split; [|split; [|split; [|split; [|split]]]]]]].
  - intros h Hh. unfold __enter__, mbind, get. now rewrite Hh.
  - intros Hnone Hfail. rewrite (Henter st Hnone). cbn [fst].
    fold opened. apply Z.eqb_eq in Hfail. now rewrite Hfail.
  - intros Hnone Hok. rewrite (Henter st Hnone). cbn [fst snd fd].
    fold opened. apply Z.eqb_neq in Hok. now rewrite Hok.
  - unfold __exit__, mbind, get. destruct (fd st); reflexivity.
  - exact Hclosed.
  - exact (Hexit st).
  - intros h Hh. subst closed. unfold __exit__, mbind, get. rewrite Hh.
    split; reflexivity.
  - exact (Hexit closed Hclosed).
  - intros Hok. rewrite (Henter closed Hclosed). cbn [fst snd fd].
    fold reopened. apply Z.eqb_neq in Hok. now rewrite Hok.
Qed.

(** C9, amended: [issue_command] hands the sense bytes of the returned
    header to [parse_sense] whether the pass-through call reported success
    or not, and an exception raised by [parse_sense] propagates to the
    caller.  When [parse_sense] returns normally: if the call returned 0 the
    operation raises [WinError] with the last error code, and what was
    parsed is dropped; otherwise it returns the sense bytes of the returned
    header as they are. *)
Theorem issue_command_sense_then_status (direction : Direction)
        (command : bytes) (data : cobject) (timeout : Z) (st : state OS) :
  let header :=
    header_of direction command data timeout
              (firstn 16 (ljust 16 x00 command)) in
  let reply :=
    DeviceIoControl (fd st) IOCTL_SCSI_PASS_THROUGH_DIRECT header (os st) in
  let result := fst (fst reply) in
  let returned := snd (fst reply) in
  let out := issue direction command data timeout st in
  calls (snd out)
  = calls st
    ++ [Call_DeviceIoControl (fd st) IOCTL_SCSI_PASS_THROUGH_DIRECT header;
        Call_parse_sense (sense returned)]
  /\ (parse_sense (sense returned) = Ok tt -> result = 0 ->
      fst out = Raise (WinError (get_last_error (snd reply))))
  /\ (parse_sense (sense returned) = Ok tt -> result <> 0 ->
      fst out = Ok (sense returned))
  /\ (forall e, parse_sense (sense returned) = Raise e ->
      fst out = Raise e).
Proof.
  intros header reply result returned out. subst out.
  rewrite issue_command_unfold. cbn [fst snd calls].
  fold header. fold reply. fold returned. fold result.
  split; [reflexivity|].
  split; [|split].
  - intros Hparse Hres. rewrite Hparse.
    apply Z.eqb_eq in Hres. now rewrite Hres.
  - intros Hparse Hres. rewrite Hparse.
    apply Z.eqb_neq in Hres. now rewrite Hres.
  - intros e Hparse. now rewrite Hparse.
Qed.

End Windows.



Lemma device_lifecycle_witness :
  __enter__ Scripted.OS (Scripted.CreateFileW Scripted.working)
            (Scripted.get_last_error Scripted.working) Scripted.open_device
  = (Raise IOError_already_open, Scripted.open_device)
  /\ fst (__enter__ Scripted.OS (Scripted.CreateFileW Scripted.failing)
                    (Scripted.get_last_error Scripted.failing)
                    Scripted.closed_device)
     = Raise (WinError 5)
  /\ fst (__enter__ Scripted.OS (Scripted.CreateFileW Scripted.working)
                    (Scripted.get_last_error Scripted.working)
                    Scripted.closed_device)
     = Ok tt
  /\ __exit__ Scripted.OS Scripted.CloseHandle Scripted.closed_device
     = (Ok false, Scripted.closed_device)
  /\ fst (__enter__ Scripted.OS (Scripted.CreateFileW Scripted.working)
                    (Scripted.get_last_error Scripted.working)
                    (snd (__exit__ Scripted.OS Scripted.CloseHandle
                                   Scripted.open_device)))
     = Ok tt.
Proof.
  pose proof (device_lifecycle Scripted.OS
                (Scripted.CreateFileW Scripted.working) Scripted.CloseHandle
                (Scripted.get_last_error Scripted.working)
                Scripted.open_device) as Hopen.
  pose proof (device_lifecycle Scripted.OS
                (Scripted.CreateFileW Scripted.failing) Scripted.CloseHandle
                (Scripted.get_last_error Scripted.failing)
                Scripted.closed_device) as Hfail.
  pose proof (device_lifecycle Scripted.OS
                (Scripted.CreateFileW Scripted.working) Scripted.CloseHandle
                (Scripted.get_last_error Scripted.working)
                Scripted.closed_device) as Hwork.
  cbv zeta in Hopen, Hfail, Hwork.
  destruct Hopen as (Htwice & _ & _ & _ & _ & _ & _ & _ & Hagain).
  destruct Hfail as (_ & Herror & _).
  destruct Hwork as (_ & _ & Hsucceeds & _ & _ & Hnoop & _).
  split; [apply (Htwice 420); reflexivity|].
  split; [apply Herror; reflexivity|].
  split; [apply Hsucceeds; [reflexivity|vm_compute; discriminate]|].
  split; [apply Hnoop; reflexivity|].
  apply Hagain. vm_compute. discriminate.
Defined.

Lemma issue_command_sense_then_status_witness :
  fst (issue_command Scripted.OS
         (Scripted.DeviceIoControl Scripted.failing)
         (Scripted.get_last_error Scripted.failing)
         Scripted.parse_sense 56 32 48
         FROM Scripted.inquiry Scripted.buffer_512 3000 Scripted.open_device)
  = Raise (WinError 5)
  /\ fst (issue_command Scripted.OS
            (Scripted.DeviceIoControl Scripted.working)
            (Scripted.get_last_error Scripted.working)
            Scripted.parse_sense 56 32 48
            FROM Scripted.inquiry Scripted.buffer_512 3000
            Scripted.open_device)
     = Ok [x70; x00; x00; x00]
  /\ fst (issue_command Scripted.OS
            (Scripted.DeviceIoControl Scripted.working)
            (Scripted.get_last_error Scripted.working)
            Scripted.refusing_parse_sense 56 32 48
            FROM Scripted.inquiry Scripted.buffer_512 3000
            Scripted.open_device)
     = Raise (ForeignError 1).
Proof.
  pose proof (issue_command_sense_then_status Scripted.OS
                (Scripted.DeviceIoControl Scripted.failing)
                (Scripted.get_last_error Scripted.failing)
                Scripted.parse_sense 56 32 48
                FROM Scripted.inquiry Scripted.buffer_512 3000
                Scripted.open_device) as Hfail.
  pose proof (issue_command_sense_then_status Scripted.OS
                (Scripted.DeviceIoControl Scripted.working)
                (Scripted.get_last_error Scripted.working)
                Scripted.parse_sense 56 32 48
                FROM Scripted.inquiry Scripted.buffer_512 3000
                Scripted.open_device) as Hwork.
  pose proof (issue_command_sense_then_status Scripted.OS
                (Scripted.DeviceIoControl Scripted.working)
                (Scripted.get_last_error Scripted.working)
                Scripted.refusing_parse_sense 56 32 48
                FROM Scripted.inquiry Scripted.buffer_512 3000
                Scripted.open_device) as Hrefuse.
  cbv zeta in Hfail, Hwork, Hrefuse.
  destruct Hfail as (_ & Herror & _).
  destruct Hwork as (_ & _ & Hsense & _).
  destruct Hrefuse as (_ & _ & _ & Hraise).
  split; [|split].
  - apply Herror; reflexivity.
  - apply Hsense; [reflexivity|]. vm_compute. discriminate.
  - apply Hraise. reflexivity.
Defined.

(** C9, as the specification states it: when the pass-through call itself
    failed, the operation fails with the platform error, and on success the
    sense bytes are returned.  With a [parse_sense] that raises, neither
    happens: its exception comes out, although the call returned 0 with
    last error 5 in the one case and returned 1 in the other. *)
Lemma sense_error_comes_first :
  let run (sc : Scripted.script) :=
    fst (issue_command Scripted.OS
           (Scripted.DeviceIoControl sc) (Scripted.get_last_error sc)
           Scripted.refusing_parse_sense 56 32 48
           FROM Scripted.inquiry Scripted.buffer_512 3000
           Scripted.open_device) in
  Scripted.ioctl_result Scripted.failing = 0
  /\ run Scripted.failing = Raise (ForeignError 1)
  /\ run Scripted.failing <> Raise (WinError 5)
  /\ Scripted.ioctl_result Scripted.working <> 0
  /\ run Scripted.working = Raise (ForeignError 1)
  /\ (forall blob : bytes, run Scripted.working <> Ok blob).
Proof.
  vm_compute. repeat split; try discriminate; intros; discriminate.
Qed.

(* ================================================================== *)
(** * Further properties                                              *)
(* ================================================================== *)

(** ** Layout of the remaining structures *)

Lemma align_up_1 (off : Z) : align_up off 1 = off.
Proof. unfold align_up. now rewrite Z.mod_1_r. Qed.

(** X1: the SMART log page structure is exactly 512 bytes; its fields
    follow one another without a gap, with the temperature at offset 1, the
    ten 128-bit counters at offsets 32 to 176 and the reserved tail from
    offset 232; the critical warning is one byte whose flags are bits 0 to 4
    and whose reserved bits are 5 to 7. *)
Theorem SMARTPageResponse_layout :
  sizeof SMARTPageResponse = 512
  /\ sizeof SMARTCriticalWarning = 1
  /\ map (fun p => (p_name p, p_offset p, p_bitofs p, p_bits p))
         (layout SMARTCriticalWarning)
     = [ ("available_spare", 0, 0, Some 1); ("temperature", 0, 1, Some 1);
         ("degraded_nvm", 0, 2, Some 1); ("read_only", 0, 3, Some 1);
         ("volatile_memory_backup", 0, 4, Some 1);
         ("reserved_1", 0, 5, Some 3) ]
  /\ spans SMARTPageResponse
     = [ ("critical_warning", 0, 1); ("temperature", 1, 2);
         ("available_spare", 3, 1); ("available_spare_threshold", 4, 1);
         ("percent_used", 5, 1);
         ("endurance_group_critical_warning_summary", 6, 1);
         ("reserved_1", 7, 25);
         ("data_units_read", 32, 16); ("data_units_written", 48, 16);
         ("host_read_commands", 64, 16); ("host_write_commands", 80, 16);
         ("controller_busy_time", 96, 16); ("power_cycles", 112, 16);
         ("power_on_hours", 128, 16); ("unsafe_shutdowns", 144, 16);
         ("media_errors", 160, 16); ("num_err_log_entries", 176, 16);
         ("warning_temp_time", 192, 4); ("critical_temp_time", 196, 4);
         ("temperature_sensors", 200, 16);
         ("thermal_transition_counts", 216, 8);
         ("total_time_for_thermal_management", 224, 8);
         ("reserved_2", 232, 280) ].
Proof. repeat split; reflexivity. Qed.

(** X2: the identify response structure is exactly 4096 bytes, with the
    two vendor ids at offsets 0 and 2, the 20-byte serial number at 4, the
    40-byte model number at 24, the 8-byte firmware revision at 64 and the
    unparsed rest from 72; no padding is inserted. *)
Theorem NVMeIdentifyResponse_layout :
  sizeof NVMeIdentifyResponse = 4096
  /\ alignment NVMeIdentifyResponse = 2
  /\ spans NVMeIdentifyResponse
     = [ ("vendor_id", 0, 2); ("ssvid", 2, 2); ("serial_number", 4, 20);
         ("model_number", 24, 40); ("firmware_revision", 64, 8);
         ("unknown", 72, 4024) ].
Proof. repeat split; reflexivity. Qed.

(** X3: for every data length that is not negative and keeps the whole
    structure below 2^63 bytes, [GetNVMeSpecificDataQueryWithData] yields a
    structure of 48 bytes of header followed by the data, 48 + data_length
    bytes in all; a negative length, or a length of 2^63 or more, yields no
    structure.  The header is the 8-byte property query followed by the
    40-byte protocol-specific data, the protocol data descriptor is 48 bytes
    and the returned-bytes structure 4. *)
Theorem NVMeSpecificDataQuery_layout (data_length : Z) :
  (0 <= data_length -> 48 + data_length < 2 ^ 63 ->
   exists Query,
     GetNVMeSpecificDataQueryWithData data_length = Some Query
     /\ sizeof Query = 48 + data_length
     /\ spans Query = [("command_header", 0, 48); ("data", 48, data_length)])
  /\ (data_length < 0 -> GetNVMeSpecificDataQueryWithData data_length = None)
  /\ (2 ^ 63 <= data_length ->
      GetNVMeSpecificDataQueryWithData data_length = None)
  /\ sizeof StoragePropertyQuery = 8
  /\ sizeof StorageProtocolSpecificData = 40
  /\ spans NVMeSpecificDataQueryHeader
     = [ ("storage_property_query", 0, 8);
         ("storage_protocol_specific_data", 8, 40) ]
  /\ sizeof NVMeSpecificDataQueryHeader = 48
  /\ spans STORAGE_PROTOCOL_DATA_DESCRIPTOR
     = [ ("Version", 0, 4); ("Size", 4, 4);
         ("storage_protocol_specific_data", 8, 40) ]
  /\ sizeof STORAGE_PROTOCOL_DATA_DESCRIPTOR = 48
  /\ sizeof BytesReturnedStruc = 4.
Proof.
  split; [|split; [|split; [|repeat split; reflexivity]]].
  - intros H Hfit. unfold GetNVMeSpecificDataQueryWithData.
    apply Z.ltb_ge in H. rewrite H.
    assert (Hfit' : (2 ^ 63 <=? 48 + data_length) = false)
      by (apply Z.leb_gt; exact Hfit).
    rewrite Hfit'. cbn [orb].
    eexists. split; [reflexivity|].
    unfold spans, sizeof, alignment, layout.
    cbn [s_pack s_fields place_all].
    change (c_struct NVMeSpecificDataQueryHeader)
      with {| ct_size := 48; ct_align := 1 |}.
    unfold place, fld, c_array, c_ubyte.
    cbn [f_type f_bits f_name ct_size ct_align eff_align ls_offset ls_align
         fst snd map p_name p_offset p_size init_lstate].
    change (Z.min 1 1) with 1. change (Z.max 1 (Z.max 1 1)) with 1.
    rewrite !align_up_1. rewrite Z.mul_1_l. split; reflexivity.
  - intros H. unfold GetNVMeSpecificDataQueryWithData.
    apply Z.ltb_lt in H. now rewrite H.
  - intros H. unfold GetNVMeSpecificDataQueryWithData.
    assert (Hbig : (2 ^ 63 <=? 48 + data_length) = true)
      by (apply Z.leb_le; lia).
    rewrite Hbig. now rewrite orb_true_r.
Qed.

Lemma NVMeSpecificDataQuery_layout_witness :
  (exists Query,
     GetNVMeSpecificDataQueryWithData 512 = Some Query
     /\ sizeof Query = 560)
  /\ GetNVMeSpecificDataQueryWithData (-1) = None
  /\ GetNVMeSpecificDataQueryWithData (2 ^ 63) = None.
Proof.
  destruct (NVMeSpecificDataQuery_layout 512) as (Hsome & _).
  destruct (NVMeSpecificDataQuery_layout (-1)) as (_ & Hnone & _).
  destruct (NVMeSpecificDataQuery_layout (2 ^ 63)) as (_ & _ & Hbig & _).
  split; [|split].
  - assert (H0 : 0 <= 512) by lia.
    assert (Hfit : 48 + 512 < 2 ^ 63) by (vm_compute; reflexivity).
    destruct (Hsome H0 Hfit) as (Query & E & S & _).
    exists Query. split; [exact E|exact S].
  - apply Hnone. lia.
  - apply Hbig. lia.
Defined.

(** ** The status field, bit by bit *)

Lemma byte_bits (x : byte) :
  let v := byte_val x in
  v = Z.land v 7 + 8 * Z.land (Z.shiftr v 3) 3
      + 32 * Z.land (Z.shiftr v 5) 1 + 64 * Z.land (Z.shiftr v 6) 1
      + 128 * Z.shiftr v 7
  /\ 0 <= Z.land v 7 < 8 /\ 0 <= Z.land (Z.shiftr v 3) 3 < 4
  /\ 0 <= Z.land (Z.shiftr v 5) 1 < 2 /\ 0 <= Z.land (Z.shiftr v 6) 1 < 2
  /\ 0 <= Z.shiftr v 7 < 2.
Proof. destruct x; vm_compute; repeat split; congruence. Qed.

(** X4: the five fields of the status structure and the unnamed top bit
    of its second byte split the two bytes without overlap: the first byte is
    the status code, and the second is type + 8 * retry delay + 32 * more
    + 64 * do-not-retry + 128 * top bit, each within the range of its
    width. *)
Theorem status_field_bits (b0 b1 : byte) :
  let f := [b0; b1] in
  byte_val b0 = status_code f
  /\ byte_val b1
     = status_code_type f + 8 * cmd_retry_delay f + 32 * more f
       + 64 * do_not_retry f + 128 * Z.shiftr (byte_val b1) 7
  /\ 0 <= status_code f < 256
  /\ 0 <= status_code_type f < 8
  /\ 0 <= cmd_retry_delay f < 4
  /\ 0 <= more f < 2
  /\ 0 <= do_not_retry f < 2
  /\ 0 <= Z.shiftr (byte_val b1) 7 < 2.
Proof.
  intros f. subst f.
  destruct (status_fields_of_bytes b0 b1) as (E0 & E1 & E2 & E3 & E4).
  rewrite E0, E1, E2, E3, E4.
  pose proof (byte_bits b1) as H. cbv zeta in H.
  pose proof (byte_val_range b0).
  intuition.
Qed.

(** X5: [parse_status_filed] looks at eleven bits only.  Bytes after
    the second do not matter; the blob is accepted exactly when its first
    byte is zero and the three low bits of its second byte are zero, whatever
    the retry delay, more and do-not-retry bits; and the only error it raises
    on a blob of two bytes or more is the status error carrying the first
    byte and those three bits. *)
Theorem parse_status_filed_reads_eleven_bits (b0 b1 : byte) (rest : bytes) :
  parse_status_filed (b0 :: b1 :: rest) = parse_status_filed [b0; b1]
  /\ (parse_status_filed (b0 :: b1 :: rest) = Ok [b0; b1]
      <-> (b0 = x00 /\ Z.land (byte_val b1) 7 = 0))
  /\ (forall c1 : byte,
        Z.land (byte_val c1) 7 = Z.land (byte_val b1) 7 ->
        (exists f, parse_status_filed (b0 :: c1 :: rest) = Ok f)
        <-> (exists f, parse_status_filed (b0 :: b1 :: rest) = Ok f))
  /\ (forall e, parse_status_filed (b0 :: b1 :: rest) = Raise e ->
        e = NVMeStatusFieldError (byte_val b0) (Z.land (byte_val b1) 7) [b0; b1]
        /\ (byte_val b0 <> 0 \/ Z.land (byte_val b1) 7 <> 0)).
Proof.
  assert (Hgen : forall c0 c1 r,
    parse_status_filed (c0 :: c1 :: r)
    = if negb (byte_val c0 =? 0) || negb (Z.land (byte_val c1) 7 =? 0)
      then Raise (NVMeStatusFieldError (byte_val c0) (Z.land (byte_val c1) 7)
                                       [c0; c1])
      else Ok [c0; c1]).
  { intros c0 c1 r. unfold parse_status_filed.
    rewrite status_decode_enough by (simpl; lia). cbn [firstn bind].
    destruct (status_fields_of_bytes c0 c1) as (E0 & E1 & _).
    now rewrite E0, E1. }
  split; [now rewrite !Hgen|].
  split; [|split].
  - rewrite Hgen.
    destruct (Z.eqb_spec (byte_val b0) 0) as [E0|N0];
      destruct (Z.eqb_spec (Z.land (byte_val b1) 7) 0) as [E1|N1];
      cbn [negb orb]; rewrite <- (byte_val_zero b0);
      split; intros H; try discriminate; try (destruct H; contradiction);
      auto.
  - intros c1 Hc. rewrite !Hgen, Hc.
    destruct (negb (byte_val b0 =? 0) || negb (Z.land (byte_val b1) 7 =? 0));
      split; intros [f Hf]; try discriminate; eauto.
  - intros e. rewrite Hgen.
    destruct (Z.eqb_spec (byte_val b0) 0) as [E0|N0];
      destruct (Z.eqb_spec (Z.land (byte_val b1) 7) 0) as [E1|N1];
      cbn [negb orb]; intros H; inversion H; subst; auto.
Qed.

Lemma parse_status_filed_reads_eleven_bits_witness :
  parse_status_filed [x00; xf8; x2a] = Ok [x00; xf8]
  /\ ((exists f, parse_status_filed [x00; x78; x2a] = Ok f)
      <-> (exists f, parse_status_filed [x00; xf8; x2a] = Ok f)).
Proof.
  destruct (parse_status_filed_reads_eleven_bits x00 xf8 [x2a])
    as (_ & Hok & Hsame & _).
  split.
  - apply Hok. split; reflexivity.
  - apply Hsame. reflexivity.
Defined.

(** ** Decoding errors *)

Lemma cons_cp_raise (cp : Z) (r : result str) (e : exn) :
  cons_cp cp r = Raise e -> r = Raise e.
Proof. destruct r; simpl; [discriminate|auto]. Qed.

Ltac utf8_branches H :=
  repeat match type of H with
    | context [if ?c then _ else _] => destruct c eqn:?
    | context [match ?t with [] => _ | _ :: _ => _ end] => destruct t
    end.

Lemma utf8_decode_error_kind (n : nat) :
  forall (l : bytes) (e : exn),
    (length l <= n)%nat -> utf8_decode l = Raise e -> e = UnicodeDecodeError.
Proof.
  induction n as [|n IH]; intros l e Hlen H.
  - destruct l; [discriminate|simpl in Hlen; lia].
  - destruct l as [|b0 t]; [discriminate|].
    cbn [utf8_decode] in H. cbv zeta in H.
    utf8_branches H;
      try (inversion H; reflexivity);
      apply cons_cp_raise in H;
      (eapply IH; [|exact H]); simpl in Hlen |- *; lia.
Qed.

Lemma utf8_decode_high_byte (n : nat) :
  forall l : bytes,
    (length l <= n)%nat -> Exists (fun b => 0xF5 <= byte_val b) l ->
    utf8_decode l = Raise UnicodeDecodeError.
Proof.
  induction n as [|n IH]; intros l Hlen Hex.
  - destruct l; [inversion Hex|simpl in Hlen; lia].
  - destruct l as [|b0 t]; [inversion Hex|].
    cbn [utf8_decode]. cbv zeta.
    unfold in_range.
    repeat match goal with
      | |- context [if ?c then _ else _] => destruct c eqn:?
      | |- context [match ?t with [] => _ | _ :: _ => _ end] => destruct t
      end; try reflexivity.
    all: rewrite IH; [reflexivity|simpl in Hlen |- *; lia|].
    all: repeat match goal with
        | H : Exists _ (_ :: _) |- _ => apply Exists_cons in H; destruct H
        | H : (_ && _) = true |- _ => apply andb_true_iff in H; destruct H
        | H : (_ <=? _) = true |- _ => apply Z.leb_le in H
        | H : (_ <? _) = true |- _ => apply Z.ltb_lt in H
        | H : (_ =? _) = true |- _ => apply Z.eqb_eq in H
        | H : (_ =? _) = false |- _ => apply Z.eqb_neq in H
        end; try assumption; try lia.
Qed.

(** ** More on trimming *)

Lemma lstrip_all (chars l : bytes) :
  Forall (fun b => byte_in chars b = true) l -> lstrip chars l = [].
Proof.
  induction 1 as [|a l Ha _ IH]; [reflexivity|].
  cbn [lstrip]. now rewrite Ha.
Qed.

Lemma lstrip_app_or (chars l post : bytes) :
  Forall (fun b => byte_in chars b = true) post ->
  (lstrip chars l = [] /\ lstrip chars (l ++ post) = [])
  \/ lstrip chars (l ++ post) = lstrip chars l ++ post.
Proof.
  intros Hpost. induction l as [|a l IH].
  - left. split; [reflexivity|]. now apply lstrip_all.
  - cbn [app lstrip]. destruct (byte_in chars a); [exact IH|now right].
Qed.

Lemma rstrip_skips (chars l post : bytes) :
  Forall (fun b => byte_in chars b = true) post ->
  rstrip chars (l ++ post) = rstrip chars l.
Proof.
  intros Hpost. unfold rstrip. rewrite rev_app_distr.
  now rewrite lstrip_skips by now apply Forall_rev.
Qed.

Lemma strip_padding (chars pre l post : bytes) :
  Forall (fun b => byte_in chars b = true) pre ->
  Forall (fun b => byte_in chars b = true) post ->
  strip chars (pre ++ l ++ post) = strip chars l.
Proof.
  intros Hpre Hpost. unfold strip.
  rewrite lstrip_skips by assumption.
  destruct (lstrip_app_or chars l post Hpost) as [[E1 E2]|E].
  - now rewrite E1, E2.
  - rewrite E. now apply rstrip_skips.
Qed.

Lemma strip_all (chars l : bytes) :
  Forall (fun b => byte_in chars b = true) l -> strip chars l = [].
Proof. intros H. unfold strip. now rewrite lstrip_all. Qed.

Lemma strip_idempotent (chars l : bytes) :
  strip chars (strip chars l) = strip chars l.
Proof.
  destruct (strip_spec chars l) as (pre & post & E & Hpre & Hpost & _).
  rewrite E at 2. symmetry. now apply strip_padding.
Qed.

Lemma strip_keeps (chars l : bytes) (b : byte) :
  byte_in chars b = false -> In b l -> In b (strip chars l).
Proof.
  intros Hb Hin.
  destruct (strip_spec chars l) as (pre & post & E & Hpre & Hpost & _).
  rewrite E in Hin.
  rewrite !in_app_iff in Hin. rewrite Forall_forall in Hpre, Hpost.
  destruct Hin as [H|[H|H]]; [|exact H|].
  - apply Hpre in H. congruence.
  - apply Hpost in H. congruence.
Qed.

(** X9: the text of a field does not depend on space and null bytes
    around it: putting such bytes before and after a field leaves the text
    the same, trimming twice is trimming once, and a field made only of
    spaces and nulls gives the empty string. *)
Theorem text_of_padding (pre field post : bytes) :
  Forall (fun b => b = x20 \/ b = x00) pre ->
  Forall (fun b => b = x20 \/ b = x00) post ->
  text_of (pre ++ field ++ post) = text_of field
  /\ strip blank (strip blank field) = strip blank field
  /\ (Forall (fun b => b = x20 \/ b = x00) field -> text_of field = Ok []).
Proof.
  intros Hpre Hpost. apply blank_pointwise in Hpre, Hpost.
  split; [|split].
  - unfold text_of. now rewrite strip_padding.
  - apply strip_idempotent.
  - intros H. apply blank_pointwise in H. unfold text_of.
    now rewrite strip_all.
Qed.

Lemma text_of_padding_witness :
  text_of ([x00; x20] ++ bytes_of_string "A 1" ++ [x20; x00; x00])
  = text_of (bytes_of_string "A 1")
  /\ text_of [x20; x00; x20] = Ok [].
Proof.
  assert (Hpre : Forall (fun b => b = x20 \/ b = x00) [x00; x20])
    by (repeat (constructor; [(left; reflexivity) || (right; reflexivity)|]);
        constructor).
  assert (Hpost : Forall (fun b => b = x20 \/ b = x00) [x20; x00; x00])
    by (repeat (constructor; [(left; reflexivity) || (right; reflexivity)|]);
        constructor).
  assert (Hall : Forall (fun b => b = x20 \/ b = x00) [x20; x00; x20])
    by (repeat (constructor; [(left; reflexivity) || (right; reflexivity)|]);
        constructor).
  split.
  - apply (text_of_padding [x00; x20] (bytes_of_string "A 1") [x20; x00; x00]
             Hpre Hpost).
  - apply (text_of_padding [] [x20; x00; x20] [] (Forall_nil _) (Forall_nil _)).
    exact Hall.
Defined.

(** X10: the only error the text of a field can raise is
    [UnicodeDecodeError], and it does raise it whenever the field holds a
    byte of 0xF5 or more (such a byte is never trimmed and never part of
    well-formed UTF-8). *)
Theorem text_of_errors (field : bytes) :
  (forall e, text_of field = Raise e -> e = UnicodeDecodeError)
  /\ (Exists (fun b => 0xF5 <= byte_val b) field ->
      text_of field = Raise UnicodeDecodeError).
Proof.
  split.
  - intros e H. unfold text_of in H.
    now apply (utf8_decode_error_kind _ _ _ (le_n _) H).
  - intros Hex. unfold text_of.
    apply (utf8_decode_high_byte _ _ (le_n _)).
    apply Exists_exists in Hex. destruct Hex as (b & Hin & Hb).
    apply Exists_exists. exists b. split; [|exact Hb].
    apply strip_keeps; [|exact Hin].
    apply byte_not_in_blank.
    split; intros ->; vm_compute in Hb; now apply Hb.
Qed.

Lemma text_of_errors_witness :
  text_of [x41; xff; x20] = Raise UnicodeDecodeError.
Proof.
  apply (text_of_errors [x41; xff; x20]).
  apply Exists_cons_tl, Exists_cons_hd. vm_compute. discriminate.
Defined.

(** ** More on the temperature *)

(** X12: on 16-bit Kelvin values [int(kelvin - 273.15)] is
    [kelvin - 273] below 274 and [kelvin - 274] from 274 on.  It lies
    between -273 and 65261 and never decreases as the Kelvin value grows; the
    only two Kelvin values with the same result are 273 and 274, which both
    give 0. *)
Theorem celsius_shape (k1 k2 : Z) :
  0 <= k1 < 65536 -> 0 <= k2 < 65536 ->
  exists c1 c2,
    celsius k1 = Ok c1 /\ celsius k2 = Ok c2
    /\ c1 = (if k1 <? 274 then k1 - 273 else k1 - 274)
    /\ -273 <= c1 <= 65261
    /\ (k1 <= k2 -> c1 <= c2)
    /\ (k1 < k2 -> c1 = c2 -> k1 = 273 /\ k2 = 274)
    /\ (c1 = 0 <-> k1 = 273 \/ k1 = 274).
Proof.
  intros H1 H2.
  exists (if k1 <? 274 then k1 - 273 else k1 - 274),
         (if k2 <? 274 then k2 - 273 else k2 - 274).
  rewrite !celsius_of_uint16, !truncated_difference by assumption.
  destruct (Z.ltb_spec k1 274); destruct (Z.ltb_spec k2 274);
    repeat split; try reflexivity; lia.
Qed.

Lemma celsius_shape_witness :
  exists c1 c2,
    celsius 273 = Ok c1 /\ celsius 274 = Ok c2 /\ c1 = 0 /\ c1 <= c2.
Proof.
  assert (H273 : 0 <= 273 < 65536) by lia.
  assert (H274 : 0 <= 274 < 65536) by lia.
  destruct (celsius_shape 273 274 H273 H274)
    as (c1 & c2 & E1 & E2 & _ & _ & Hmono & _ & Hzero).
  exists c1, c2. split; [exact E1|]. split; [exact E2|]. split.
  - apply Hzero. now left.
  - apply Hmono. lia.
Defined.

(** ** The accessors and the device *)

Lemma skipn_of_repeat {A} (x : A) (n k : nat) :
  skipn k (repeat x n) = repeat x (n - k).
Proof.
  revert n; induction k as [|k IH]; intros n.
  - now rewrite Nat.sub_0_r.
  - destruct n as [|n]; [reflexivity|]. cbn [repeat skipn]. apply IH.
Qed.

Lemma firstn_of_repeat {A} (x : A) (n k : nat) :
  (k <= n)%nat -> firstn k (repeat x n) = repeat x k.
Proof.
  revert n; induction k as [|k IH]; intros n H; [reflexivity|].
  destruct n as [|n]; [lia|]. cbn [repeat firstn]. f_equal. apply IH. lia.
Qed.

Lemma zero_page_slice (n : nat) (off len : Z) :
  0 <= off -> 0 <= len -> off + len <= Z.of_nat n ->
  slice (repeat x00 n) off len = repeat x00 (Z.to_nat len).
Proof.
  intros Hoff Hlen Hfit. unfold slice.
  rewrite skipn_of_repeat, firstn_of_repeat by lia. reflexivity.
Qed.

Lemma fill_prefix (o : cobject) (written : bytes) :
  firstn (length written) (contents (fill o written))
  = firstn (length (contents o)) written.
Proof.
  unfold fill. cbn [contents].
  destruct (Nat.le_gt_cases (length written) (length (contents o))) as [H|H].
  - rewrite (firstn_all2 written) by exact H.
    rewrite firstn_app, Nat.sub_diag. cbn [firstn].
    now rewrite firstn_all, app_nil_r.
  - rewrite skipn_all2 by lia. rewrite app_nil_r.
    apply firstn_all2. rewrite length_firstn. lia.
Qed.

Lemma fill_nothing (o : cobject) : fill o [] = o.
Proof.
  destruct o as [a c]. unfold fill. cbn [contents address length skipn].
  now rewrite firstn_nil.
Qed.

Section Accessors.

Variable issue_admin_command : AdminCommand -> result (bytes * NVMeResponse).
Variable alloc : cstruct -> Z.

Lemma text_accessors_unfold (written : bytes) (response : NVMeResponse) :
  issue_admin_command (identify_command (new_object alloc NVMeIdentifyResponse))
  = Ok (written, response) ->
  let page := contents (fill (new_object alloc NVMeIdentifyResponse) written) in
  serial issue_admin_command alloc = text_of (slice page 4 20)
  /\ model issue_admin_command alloc = text_of (slice page 24 40).
Proof.
  intros Hissue page. split.
  - unfold serial, identify. rewrite Hissue. cbn [bind]. find_field. reflexivity.
  - unfold model, identify. rewrite Hissue. cbn [bind]. find_field. reflexivity.
Qed.

Lemma temperature_unfold (written : bytes) (response : NVMeResponse) :
  issue_admin_command
    (read_log_page_command 0x02 (new_object alloc SMARTPageResponse))
  = Ok (written, response) ->
  let page := contents (fill (new_object alloc SMARTPageResponse) written) in
  temperature issue_admin_command alloc = celsius (le_decode (slice page 1 2))
  /\ 0 <= le_decode (slice page 1 2) < 65536.
Proof.
  intros Hissue page.
  assert (Hpage : Z.of_nat (length page) = 512).
  { subst page. rewrite fill_length, new_object_length.
    rewrite sizeof_SMARTPageResponse. reflexivity. }
  split.
  - unfold temperature, smart, read_log_page. rewrite Hissue. cbn [bind].
    fold page. find_field. reflexivity.
  - pose proof (le_decode_range (slice page 1 2)) as R.
    rewrite slice_length in R by lia. exact R.
Qed.

(** X6: [identify] hands [issue_admin_command] a command with opcode
    IDENTIFY (0x06), cdw10 = 1, namespace id 0, data length 4096 and the
    address of a fresh identify structure (its low 64 bits), every other
    field zero.  When the call returns, [identify] returns a 4096-byte
    structure at that address that starts with the transferred bytes,
    together with the response as it came; when the call raises, [identify]
    raises the same. *)
Theorem identify_command_spec :
  let data := new_object alloc NVMeIdentifyResponse in
  let cmd := identify_command data in
  sizeof_obj data = 4096
  /\ cmd = {| cmd_opcode := 0x06; cmd_flags := 0; cmd_reserved_1 := 0;
              cmd_nsid := 0; cmd_cdw2 := 0; cmd_cdw3 := 0; cmd_metadata := 0;
              cmd_addr := alloc NVMeIdentifyResponse mod 2 ^ 64;
              cmd_metadata_len := 0; cmd_data_len := 4096;
              cmd_cdw10 := 1; cmd_cdw11 := 0; cmd_cdw12 := 0; cmd_cdw13 := 0;
              cmd_cdw14 := 0; cmd_cdw15 := 0; cmd_timeout_ms := 0;
              cmd_result := 0 |}
  /\ (forall written response,
        issue_admin_command cmd = Ok (written, response) ->
        exists page,
          identify issue_admin_command alloc
          = Ok ({| address := alloc NVMeIdentifyResponse; contents := page |},
                response)
          /\ length page = 4096%nat
          /\ firstn (length written) page = firstn 4096 written)
  /\ (forall e, issue_admin_command cmd = Raise e ->
        identify issue_admin_command alloc = Raise e).
Proof.
  intros data cmd.
  assert (Hsize : sizeof_obj data = 4096).
  { unfold sizeof_obj. subst data. rewrite new_object_length.
    rewrite sizeof_NVMeIdentifyResponse. reflexivity. }
  split; [exact Hsize|]. split; [|split].
  - subst cmd. unfold identify_command, NVMEAdminCommand.
    rewrite Hsize. reflexivity.
  - intros written response Hissue.
    exists (contents (fill data written)). split; [|split].
    + unfold identify. fold data. fold cmd. rewrite Hissue. reflexivity.
    + rewrite fill_length. subst data. rewrite new_object_length.
      rewrite sizeof_NVMeIdentifyResponse. reflexivity.
    + assert (Hlen : length (contents data) = 4096%nat).
      { subst data. rewrite new_object_length.
        rewrite sizeof_NVMeIdentifyResponse. reflexivity. }
      rewrite fill_prefix. now rewrite Hlen.
  - intros e Hissue. unfold identify. fold data. fold cmd.
    now rewrite Hissue.
Qed.

(** X11: an exception of [issue_admin_command] comes out of [serial],
    [model], [smart] and [temperature] unchanged.  When the call returns,
    [temperature] never raises and its value lies between -273 and 65261,
    and [serial] and [model] can raise nothing but [UnicodeDecodeError].
    When the device transfers no bytes at all, [serial] and [model] are the
    empty string and [temperature] is -273. *)
Theorem accessors_on_errors_and_empty_transfers :
  let identify_cmd :=
    identify_command (new_object alloc NVMeIdentifyResponse) in
  let smart_cmd :=
    read_log_page_command 0x02 (new_object alloc SMARTPageResponse) in
  (forall e, issue_admin_command identify_cmd = Raise e ->
     serial issue_admin_command alloc = Raise e
     /\ model issue_admin_command alloc = Raise e)
  /\ (forall e, issue_admin_command smart_cmd = Raise e ->
        smart issue_admin_command alloc = Raise e
        /\ temperature issue_admin_command alloc = Raise e)
  /\ (forall written response,
        issue_admin_command smart_cmd = Ok (written, response) ->
        exists c, temperature issue_admin_command alloc = Ok c
                  /\ -273 <= c <= 65261)
  /\ (forall written response e,
        issue_admin_command identify_cmd = Ok (written, response) ->
        (serial issue_admin_command alloc = Raise e -> e = UnicodeDecodeError)
        /\ (model issue_admin_command alloc = Raise e -> e = UnicodeDecodeError))
  /\ (forall response,
        issue_admin_command identify_cmd = Ok ([], response) ->
        serial issue_admin_command alloc = Ok []
        /\ model issue_admin_command alloc = Ok [])
  /\ (forall response,
        issue_admin_command smart_cmd = Ok ([], response) ->
        temperature issue_admin_command alloc = Ok (-273)).
Proof.
  intros identify_cmd smart_cmd.
  split; [|split; [|split; [|split; [|split]]]].
  - intros e H. unfold serial, model, identify. fold identify_cmd.
    rewrite H. split; reflexivity.
  - intros e H. unfold temperature, smart, read_log_page. fold smart_cmd.
    rewrite H. split; reflexivity.
  - intros written response H.
    destruct (temperature_unfold written response H) as (E & R).
    rewrite E, celsius_of_uint16, truncated_difference by exact R.
    eexists. split; [reflexivity|].
    destruct (Z.ltb_spec (le_decode (slice
      (contents (fill (new_object alloc SMARTPageResponse) written)) 1 2)) 274);
      lia.
  - intros written response e H.
    destruct (text_accessors_unfold written response H) as (Es & Em).
    rewrite Es, Em. unfold text_of.
    split; intros He; exact (utf8_decode_error_kind _ _ _ (le_n _) He).
  - intros response H.
    destruct (text_accessors_unfold [] response H) as (Es & Em).
    rewrite Es, Em. rewrite fill_nothing. unfold new_object, new.
    cbn [contents]. rewrite sizeof_NVMeIdentifyResponse.
    rewrite !zero_page_slice by (rewrite ?Z2Nat.id; lia).
    split; reflexivity.
  - intros response H.
    destruct (temperature_unfold [] response H) as (E & _).
    rewrite E. rewrite fill_nothing. unfold new_object, new.
    cbn [contents]. rewrite sizeof_SMARTPageResponse.
    rewrite zero_page_slice by (rewrite ?Z2Nat.id; lia).
    reflexivity.
Qed.

End Accessors.

Lemma identify_command_spec_witness :
  exists page,
    identify (Scripted.device [x86; x80]) Scripted.heap
    = Ok ({| address := Scripted.heap NVMeIdentifyResponse; contents := page |},
          Scripted.response_to
            (identify_command
               (new_object Scripted.heap NVMeIdentifyResponse)))
    /\ length page = 4096%nat.
Proof.
  destruct (identify_command_spec (Scripted.device [x86; x80]) Scripted.heap)
    as (_ & _ & Hok & _).
  destruct (Hok [x86; x80] _ eq_refl) as (page & E & L & _).
  exists page. split; [exact E|exact L].
Defined.

Lemma accessors_on_errors_and_empty_transfers_witness :
  serial (fun _ => Raise (ForeignError 19)) Scripted.heap
  = Raise (ForeignError 19)
  /\ temperature (fun _ => Raise (ForeignError 19)) Scripted.heap
     = Raise (ForeignError 19)
  /\ serial (Scripted.device []) Scripted.heap = Ok []
  /\ temperature (Scripted.device []) Scripted.heap = Ok (-273).
Proof.
  destruct (accessors_on_errors_and_empty_transfers
              (fun _ => Raise (ForeignError 19)) Scripted.heap)
    as (Htext & Htemp & _).
  destruct (accessors_on_errors_and_empty_transfers
              (Scripted.device []) Scripted.heap)
    as (_ & _ & _ & _ & Hempty & Hcold).
  split; [apply (Htext (ForeignError 19) eq_refl)|].
  split; [apply (Htemp (ForeignError 19) eq_refl)|].
  split; [apply (Hempty _ eq_refl)|].
  apply (Hcold _ eq_refl).
Defined.

(** ** The dword count in cdw10 *)

(** X7: for a page id below 2^32 and a destination whose size is a
    positive multiple of four of at most 262144 bytes, the low 16 bits of
    cdw10 are the low 16 bits of the page id, and the high 16 bits are the
    dword count minus one OR-ed with the bits of the page id from bit 16 up:
    they are never less than the dword count minus one.  For a page id below
    2^16 both can be read back: the low half is the page id and four times
    (the high half plus one) is the size of the destination. *)
Theorem cdw10_dword_count (log_page_id : Z) (data : cobject) :
  let size := sizeof_obj data in
  let cdw10 := cmd_cdw10 (read_log_page_command log_page_id data) in
  0 <= log_page_id < 2 ^ 32 ->
  0 < size -> size mod 4 = 0 -> size <= 262144 ->
  Z.land cdw10 0xFFFF = Z.land log_page_id 0xFFFF
  /\ Z.shiftr cdw10 16 = Z.lor (Z.shiftr log_page_id 16) (size / 4 - 1)
  /\ size / 4 - 1 <= Z.shiftr cdw10 16
  /\ (log_page_id < 2 ^ 16 ->
      Z.land cdw10 0xFFFF = log_page_id
      /\ 4 * (Z.shiftr cdw10 16 + 1) = size).
Proof.
  intros size cdw10 Hid Hpos Hmul Hmax.
  pose proof (numd_in_range size Hpos Hmul Hmax) as Hnumd.
  assert (Hq : 0 <= size / 4 - 1 < 65536).
  { pose proof (Z.div_mod size 4 ltac:(lia)) as E. lia. }
  assert (E : cdw10 = Z.lor log_page_id (Z.shiftl (size / 4 - 1) 16)).
  { subst cdw10. unfold read_log_page_command, NVMEAdminCommand.
    cbn [cmd_cdw10]. fold size.
    apply store_in_range. change (8 * ct_size c_uint32) with 32.
    apply lor_below_pow2; [lia|exact Hid|exact Hnumd]. }
  assert (Elow : Z.land cdw10 0xFFFF = Z.land log_page_id 0xFFFF).
  { rewrite E, Z.land_lor_distr_l.
    change 0xFFFF with (Z.ones 16).
    rewrite (Z.land_ones (Z.shiftl _ _)) by lia.
    rewrite Z.shiftl_mul_pow2 by lia. rewrite Z.mod_mul by lia.
    apply Z.lor_0_r. }
  assert (Ehigh : Z.shiftr cdw10 16
                  = Z.lor (Z.shiftr log_page_id 16) (size / 4 - 1)).
  { rewrite E, Z.shiftr_lor. rewrite Z.shiftr_shiftl_l by lia.
    now rewrite Z.sub_diag, Z.shiftl_0_r. }
  split; [exact Elow|]. split; [exact Ehigh|]. split.
  - rewrite Ehigh.
    assert (Hs : 0 <= Z.shiftr log_page_id 16) by (apply Z.shiftr_nonneg; lia).
    destruct (Z.eq_dec (size / 4 - 1) 0) as [->|Hn].
    + apply Z.lor_nonneg. lia.
    + pose proof (Z.sub_lor_l_same_r (Z.shiftr log_page_id 16)
                                       (size / 4 - 1)) as D.
      assert (0 <= Z.land (Z.shiftr log_page_id 16) (Z.lnot (size / 4 - 1)))
        by (apply Z.land_nonneg; now left).
      lia.
  - intros Hsmall. split.
    + rewrite Elow. change 0xFFFF with (Z.ones 16).
      rewrite Z.land_ones by lia. apply Z.mod_small. lia.
    + rewrite Ehigh. rewrite Z.shiftr_div_pow2 by lia.
      rewrite Z.div_small by lia. rewrite Z.lor_0_l.
      pose proof (Z.div_mod size 4 ltac:(lia)) as D. lia.
Qed.

Lemma cdw10_dword_count_witness :
  let cdw10 := cmd_cdw10 (read_log_page_command 0x02 Scripted.buffer_512) in
  Z.land cdw10 0xFFFF = 0x02 /\ 4 * (Z.shiftr cdw10 16 + 1) = 512.
Proof.
  intros cdw10.
  assert (Hid : 0 <= 0x02 < 2 ^ 32)
    by (vm_compute; split; [discriminate|reflexivity]).
  assert (Hpos : 0 < sizeof_obj Scripted.buffer_512) by reflexivity.
  assert (Hmul : sizeof_obj Scripted.buffer_512 mod 4 = 0) by reflexivity.
  assert (Hmax : sizeof_obj Scripted.buffer_512 <= 262144)
    by (vm_compute; discriminate).
  destruct (cdw10_dword_count 0x02 Scripted.buffer_512 Hid Hpos Hmul Hmax)
    as (_ & _ & _ & Hback).
  apply Hback. reflexivity.
Defined.

(** ** The memory image of a command *)

Lemma byte_val_of_Z (z : Z) : byte_val (byte_of_Z z) = z mod 256.
Proof.
  unfold byte_of_Z, byte_val.
  pose proof (Z.mod_pos_bound z 256 ltac:(lia)) as R.
  destruct (Byte.of_N (Z.to_N (z mod 256))) as [b|] eqn:E.
  - apply Byte.to_of_N in E. rewrite E. lia.
  - apply Byte.of_N_None_iff in E. lia.
Qed.

Lemma le_decode_encode (n : nat) :
  forall v : Z,
    le_decode (map byte_of_Z (le_encode n v)) = v mod 256 ^ Z.of_nat n.
Proof.
  induction n as [|n IH]; intros v.
  - cbn [le_encode map le_decode]. now rewrite Z.mod_1_r.
  - cbn [le_encode map le_decode].
    rewrite byte_val_of_Z, Z.mod_mod, IH by lia.
    rewrite Nat2Z.inj_succ, Z.pow_succ_r by lia.
    rewrite Z.rem_mul_r by lia. reflexivity.
Qed.

Ltac read_image_field n :=
  unfold get_field;
  match goal with
  | |- context [find ?f ?l] =>
      let r := eval vm_compute in (find f l) in change (find f l) with r
  end;
  unfold read_placed, slice; cbn [p_offset p_size p_bits p_bitofs];
  repeat match goal with
    | |- context [Z.to_nat ?w] =>
        let r := eval vm_compute in (Z.to_nat w) in
        change (Z.to_nat w) with r
    end;
  cbn [firstn skipn];
  match goal with
  | |- le_decode ?l = ?v mod _ =>
      change l with (map byte_of_Z (le_encode n v))
  end;
  rewrite le_decode_encode; reflexivity.

Lemma command_image_fields (c : AdminCommand) :
  length (command_image c) = 72%nat
  /\ get_field NVMeAdminCommand "opcode" (command_image c) = cmd_opcode c mod 2 ^ 8
  /\ get_field NVMeAdminCommand "flags" (command_image c) = cmd_flags c mod 2 ^ 8
  /\ get_field NVMeAdminCommand "reserved_1" (command_image c) = cmd_reserved_1 c mod 2 ^ 16
  /\ get_field NVMeAdminCommand "nsid" (command_image c) = cmd_nsid c mod 2 ^ 32
  /\ get_field NVMeAdminCommand "cdw2" (command_image c) = cmd_cdw2 c mod 2 ^ 32
  /\ get_field NVMeAdminCommand "cdw3" (command_image c) = cmd_cdw3 c mod 2 ^ 32
  /\ get_field NVMeAdminCommand "metadata" (command_image c) = cmd_metadata c mod 2 ^ 64
  /\ get_field NVMeAdminCommand "addr" (command_image c) = cmd_addr c mod 2 ^ 64
  /\ get_field NVMeAdminCommand "metadata_len" (command_image c) = cmd_metadata_len c mod 2 ^ 32
  /\ get_field NVMeAdminCommand "data_len" (command_image c) = cmd_data_len c mod 2 ^ 32
  /\ get_field NVMeAdminCommand "cdw10" (command_image c) = cmd_cdw10 c mod 2 ^ 32
  /\ get_field NVMeAdminCommand "cdw11" (command_image c) = cmd_cdw11 c mod 2 ^ 32
  /\ get_field NVMeAdminCommand "cdw12" (command_image c) = cmd_cdw12 c mod 2 ^ 32
  /\ get_field NVMeAdminCommand "cdw13" (command_image c) = cmd_cdw13 c mod 2 ^ 32
  /\ get_field NVMeAdminCommand "cdw14" (command_image c) = cmd_cdw14 c mod 2 ^ 32
  /\ get_field NVMeAdminCommand "cdw15" (command_image c) = cmd_cdw15 c mod 2 ^ 32
  /\ get_field NVMeAdminCommand "timeout_ms" (command_image c) = cmd_timeout_ms c mod 2 ^ 32
  /\ get_field NVMeAdminCommand "result" (command_image c) = cmd_result c mod 2 ^ 32.
Proof.
  split.
  { unfold command_image. rewrite length_map. apply command_bytes_length. }
  unfold command_image, command_bytes.
  cbn [le_encode app map].
  repeat split.
  - read_image_field 1%nat.
  - read_image_field 1%nat.
  - read_image_field 2%nat.
  - read_image_field 4%nat.
  - read_image_field 4%nat.
  - read_image_field 4%nat.
  - read_image_field 8%nat.
  - read_image_field 8%nat.
  - read_image_field 4%nat.
  - read_image_field 4%nat.
  - read_image_field 4%nat.
  - read_image_field 4%nat.
  - read_image_field 4%nat.
  - read_image_field 4%nat.
  - read_image_field 4%nat.
  - read_image_field 4%nat.
  - read_image_field 4%nat.
  - read_image_field 4%nat.
Qed.

(** X8: every command built by [NVMEAdminCommand] has a 72-byte memory
    image, and reading the eighteen fields back from that image through the
    layout of the structure gives the command again: no two fields
    overlap. *)
Theorem command_image_round_trip (opcode : NVMeAdminCommands)
        (addr data_len nsid cdw10 : Z) :
  let c := NVMEAdminCommand opcode addr data_len nsid cdw10 in
  length (command_image c) = 72%nat
  /\ command_of_image (command_image c) = c.
Proof.
  intros c.
  pose proof (command_image_fields c)
    as (Hlen & H1 & H2 & H3 & H4 & H5 & H6 & H7 & H8 & H9 & H10 & H11 & H12
        & H13 & H14 & H15 & H16 & H17 & H18).
  split; [exact Hlen|].
  unfold command_of_image.
  rewrite H1, H2, H3, H4, H5, H6, H7, H8, H9, H10, H11, H12, H13, H14, H15,
    H16, H17, H18.
  subst c. unfold NVMEAdminCommand, store.
  cbn [cmd_opcode cmd_flags cmd_reserved_1 cmd_nsid cmd_cdw2 cmd_cdw3
       cmd_metadata cmd_addr cmd_metadata_len cmd_data_len cmd_cdw10
       cmd_cdw11 cmd_cdw12 cmd_cdw13 cmd_cdw14 cmd_cdw15 cmd_timeout_ms
       cmd_result].
  change (8 * ct_size c_ubyte) with 8.
  change (8 * ct_size c_uint32) with 32.
  change (8 * ct_size c_uint64) with 64.
  rewrite !Z.mod_mod by lia. rewrite !Z.mod_0_l by lia. reflexivity.
Qed.

(** ** More on the Windows SCSI device *)

Section WindowsMore.

Variable OS : Type.
Variable CreateFileW : string -> OS -> Z * OS.
Variable CloseHandle : Z -> OS -> OS.
Variable DeviceIoControl :
  option Z -> Z -> SCSIPassThroughDirectWithBuffer -> OS ->
  Z * SCSIPassThroughDirectWithBuffer * OS.
Variable get_last_error : OS -> Z.
Variable parse_sense : bytes -> result unit.
Variable sizeof_SCSIPassThroughDirect : Z.
Variable sense_size : Z.
Variable sense_offset : Z.

Abbreviation enter := (__enter__ OS CreateFileW get_last_error).
Abbreviation exit := (__exit__ OS CloseHandle).
Abbreviation issue :=
  (issue_command OS DeviceIoControl get_last_error parse_sense
                 sizeof_SCSIPassThroughDirect sense_size sense_offset).
Abbreviation header_of :=
  (build_header sizeof_SCSIPassThroughDirect sense_size sense_offset).

Lemma enter_closed (st : state OS) :
  fd st = None ->
  enter st
  = (if fst (CreateFileW (path st) (os st)) =? -1
     then Raise (WinError (get_last_error (snd (CreateFileW (path st) (os st)))))
     else Ok tt,
     {| path := path st;
        fd := Some (fst (CreateFileW (path st) (os st)));
        os := snd (CreateFileW (path st) (os st));
        calls := calls st ++ [Call_CreateFileW (path st)] |}).
Proof.
  intros Hs. unfold __enter__, mbind, get. rewrite Hs.
  unfold call_CreateFileW.
  destruct (CreateFileW (path st) (os st)) as [h o].
  cbn [fst snd set_fd path fd os calls].
  destruct (h =? -1); reflexivity.
Qed.

Lemma exit_open (st : state OS) (h : Z) :
  fd st = Some h ->
  exit st
  = (Ok false,
     {| path := path st; fd := None; os := CloseHandle h (os st);
        calls := calls st ++ [Call_CloseHandle h] |}).
Proof. intros Hs. unfold __exit__, mbind, get. now rewrite Hs. Qed.

(** X13: when [CreateFileW] fails in [__enter__], the handle attribute
    is left at -1.  A second [__enter__] is then refused as already open,
    without any call to the operating system; [__exit__] calls [CloseHandle]
    on -1 and clears the attribute, after which [__enter__] calls
    [CreateFileW] again. *)
Theorem failed_open_keeps_the_handle_set (st : state OS) :
  fd st = None ->
  fst (CreateFileW (path st) (os st)) = -1 ->
  let failed := snd (enter st) in
  let closed := snd (exit failed) in
  fd failed = Some (-1)
  /\ enter failed = (Raise IOError_already_open, failed)
  /\ calls closed
     = calls st ++ [Call_CreateFileW (path st); Call_CloseHandle (-1)]
  /\ fd closed = None
  /\ calls (snd (enter closed))
     = calls closed ++ [Call_CreateFileW (path st)].
Proof.
  intros Hnone Hfail failed closed.
  assert (Efailed : failed
                    = {| path := path st; fd := Some (-1);
                         os := snd (CreateFileW (path st) (os st));
                         calls := calls st ++ [Call_CreateFileW (path st)] |}).
  { subst failed. rewrite (enter_closed st Hnone). cbn [snd].
    now rewrite Hfail. }
  assert (Eclosed : closed
                    = {| path := path st; fd := None;
                         os := CloseHandle (-1) (snd (CreateFileW (path st) (os st)));
                         calls := (calls st ++ [Call_CreateFileW (path st)])
                                  ++ [Call_CloseHandle (-1)] |}).
  { subst closed. rewrite Efailed. now rewrite (exit_open _ (-1)). }
  split; [now rewrite Efailed|]. split; [|split; [|split]].
  - rewrite Efailed. unfold __enter__, mbind, get. reflexivity.
  - rewrite Eclosed. cbn [calls]. now rewrite <- app_assoc.
  - now rewrite Eclosed.
  - rewrite enter_closed by now rewrite Eclosed.
    cbn [snd calls]. now rewrite Eclosed.
Qed.

(** X14: [__enter__] then [__exit__] on a closed device, with
    [CreateFileW] succeeding: the handle closed is the handle opened.  The
    two calls made are [CreateFileW] on the device path and [CloseHandle] on
    the handle it returned, the device ends closed with its path unchanged,
    and [__exit__] returns False. *)
Theorem enter_exit_pairs_the_handle (st : state OS) :
  fd st = None ->
  let opened := CreateFileW (path st) (os st) in
  fst opened <> -1 ->
  let inside := snd (enter st) in
  let after := snd (exit inside) in
  fst (enter st) = Ok tt
  /\ fd inside = Some (fst opened)
  /\ exit inside = (Ok false, after)
  /\ fd after = None
  /\ path after = path st
  /\ os after = CloseHandle (fst opened) (snd opened)
  /\ calls after
     = calls st ++ [Call_CreateFileW (path st); Call_CloseHandle (fst opened)].
Proof.
  intros Hnone opened Hok inside after.
  assert (Einside : inside
                    = {| path := path st; fd := Some (fst opened);
                         os := snd opened;
                         calls := calls st ++ [Call_CreateFileW (path st)] |}).
  { subst inside. now rewrite (enter_closed st Hnone). }
  assert (Eafter : exit inside
                   = (Ok false,
                      {| path := path st; fd := None;
                         os := CloseHandle (fst opened) (snd opened);
                         calls := (calls st ++ [Call_CreateFileW (path st)])
                                  ++ [Call_CloseHandle (fst opened)] |})).
  { rewrite Einside. now rewrite (exit_open _ (fst opened)). }
  split.
  { rewrite (enter_closed st Hnone). cbn [fst]. fold opened.
    apply Z.eqb_neq in Hok. now rewrite Hok. }
  split; [now rewrite Einside|].
  subst after. rewrite Eafter. cbn [snd path fd os calls].
  repeat split. now rewrite <- app_assoc.
Qed.

(** X15: [issue_command] neither opens nor closes the device: handle
    and path are as before, also when the handle is unset, and exactly two
    calls are made, the pass-through call with the current handle and then
    [parse_sense].  The header is submitted with a zero-filled sense region.
    The header's command length is the one-byte field holding the length of
    the command modulo 256; for a command of at most 16 bytes, the command
    can be read back as the first command-length bytes of the command
    block.  The only exceptions are the [WinError] of a pass-through call
    that returned 0, and what [parse_sense] raises. *)
Theorem issue_command_frame (direction : Direction) (command : bytes)
        (data : cobject) (timeout : Z) (st : state OS) :
  let header :=
    header_of direction command data timeout
              (firstn 16 (ljust 16 x00 command)) in
  let reply :=
    DeviceIoControl (fd st) IOCTL_SCSI_PASS_THROUGH_DIRECT header (os st) in
  let out := issue direction command data timeout st in
  fd (snd out) = fd st
  /\ path (snd out) = path st
  /\ os (snd out) = snd reply
  /\ calls (snd out)
     = calls st ++ [Call_DeviceIoControl (fd st)
                      IOCTL_SCSI_PASS_THROUGH_DIRECT header;
                    Call_parse_sense (sense (snd (fst reply)))]
  /\ length (sense header) = Z.to_nat sense_size
  /\ Forall (fun b => b = x00) (sense header)
  /\ cdb_length (sptd header) = Z.of_nat (length command) mod 256
  /\ ((length command <= 16)%nat ->
      firstn (Z.to_nat (cdb_length (sptd header))) (cdb (sptd header))
      = command)
  /\ (forall e, fst out = Raise e ->
        (e = WinError (get_last_error (snd reply)) /\ fst (fst reply) = 0)
        \/ parse_sense (sense (snd (fst reply))) = Raise e).
Proof.
  intros header reply out. subst out. rewrite issue_command_unfold.
  cbn [fst snd fd path os calls].
  fold header. fold reply.
  split; [reflexivity|]. split; [reflexivity|]. split; [reflexivity|].
  split; [reflexivity|].
  subst header. cbn [build_header sptd sense cdb cdb_length].
  split; [apply repeat_length|].
  split; [apply Forall_forall; intros b Hb; now apply repeat_spec in Hb|].
  split; [reflexivity|].
  split.
  - intros H. rewrite cdb_of_short by exact H.
    rewrite store_in_range
      by (change (2 ^ (8 * ct_size c_ubyte)) with 256; lia).
    rewrite Nat2Z.id. rewrite firstn_app, Nat.sub_diag. cbn [firstn].
    now rewrite firstn_all, app_nil_r.
  - intros e.
    destruct (parse_sense (sense (snd (fst reply)))) as [u|e'] eqn:Ep.
    + destruct (Z.eqb_spec (fst (fst reply)) 0) as [E0|N0];
        intros H; inversion H; subst. left. now split.
    + intros H. inversion H; subst. now right.
Qed.

End WindowsMore.

Lemma failed_open_keeps_the_handle_set_witness :
  let failed :=
    snd (__enter__ Scripted.OS (Scripted.CreateFileW Scripted.failing)
                   (Scripted.get_last_error Scripted.failing)
                   Scripted.closed_device) in
  fd failed = Some (-1)
  /\ __enter__ Scripted.OS (Scripted.CreateFileW Scripted.failing)
               (Scripted.get_last_error Scripted.failing) failed
     = (Raise IOError_already_open, failed).
Proof.
  intros failed.
  destruct (failed_open_keeps_the_handle_set Scripted.OS
              (Scripted.CreateFileW Scripted.failing) Scripted.CloseHandle
              (Scripted.get_last_error Scripted.failing)
              Scripted.closed_device eq_refl eq_refl)
    as (Hfd & Hrefused & _).
  split; [exact Hfd|exact Hrefused].
Defined.

Lemma enter_exit_pairs_the_handle_witness :
  calls (snd (__exit__ Scripted.OS Scripted.CloseHandle
                (snd (__enter__ Scripted.OS
                        (Scripted.CreateFileW Scripted.working)
                        (Scripted.get_last_error Scripted.working)
                        Scripted.closed_device))))
  = [Call_CreateFileW (path Scripted.closed_device); Call_CloseHandle 420].
Proof.
  assert (Hok : fst (Scripted.CreateFileW Scripted.working
                       (path Scripted.closed_device)
                       (os Scripted.closed_device)) <> -1)
    by (vm_compute; discriminate).
  destruct (enter_exit_pairs_the_handle Scripted.OS
              (Scripted.CreateFileW Scripted.working) Scripted.CloseHandle
              (Scripted.get_last_error Scripted.working)
              Scripted.closed_device eq_refl Hok)
    as (_ & _ & _ & _ & _ & _ & Hcalls).
  exact Hcalls.
Defined.

Lemma issue_command_frame_witness :
  let header :=
    build_header 56 32 48 FROM Scripted.inquiry Scripted.buffer_512 3000
                 (firstn 16 (ljust 16 x00 Scripted.inquiry)) in
  firstn (Z.to_nat (cdb_length (sptd header))) (cdb (sptd header))
  = Scripted.inquiry
  /\ fd (snd (issue_command Scripted.OS
                (Scripted.DeviceIoControl Scripted.failing)
                (Scripted.get_last_error Scripted.failing)
                Scripted.parse_sense 56 32 48
                FROM Scripted.inquiry Scripted.buffer_512 3000
                Scripted.closed_device))
     = None.
Proof.
  intros header.
  destruct (issue_command_frame Scripted.OS
              (Scripted.DeviceIoControl Scripted.failing)
              (Scripted.get_last_error Scripted.failing)
              Scripted.parse_sense 56 32 48
              FROM Scripted.inquiry Scripted.buffer_512 3000
              Scripted.closed_device)
    as (Hfd & _ & _ & _ & _ & _ & _ & Hback & _).
  split; [|exact Hfd].
  apply Hback. simpl. lia.
Defined.
